(** * Payment-gated media generation server: model and verified properties

    A shallow embedding of the TypeScript sources

      - [services/video/service.ts]      (class [VideoService]),
      - [services/nevermined/manager.ts] (class [PaymentsManager]),
      - [services/nevermined/config.ts]  ([NEVERMINED_CONFIG]),
      - the two server entry points that register the MCP tools: the one
        built on [@nevermined-io/mcp-payments-library] (module [LibServer]
        below) and the one built on [PaymentsManager] (module [Server]).

    JavaScript values are modelled by [JsVal]; every call that leaves the
    process (payment service, generation backend, artifact download) is
    answered by an oracle of the [World] record and logged in a trace, and
    [async] functions become computations of the monad [M] (reader over
    the world, writer over the trace, exceptions for [throw]).
    [console.error] logging is not modelled. *)

From Stdlib Require Import ZArith NArith List String Ascii Bool Lia.
From Stdlib Require Import DecimalString.
From Stdlib Require Strings.Byte.
Import ListNotations.

Local Open Scope string_scope.
Local Open Scope Z_scope.

Set Warnings "-register-all".

(* ================================================================== *)
(** ** JavaScript values *)

(** Numbers: the program only handles credit amounts, HTTP status codes
    and byte counts, so the finite numbers are modelled by the integers
    (exact below 2^53), together with [NaN] and the two infinities. *)
Inductive JsNum : Type :=
| NaN
| Int (z : Z)
| Infinity (negative : bool).

(** JSON-shaped values.  An object is the list of its own enumerable
    properties; a property that is absent and one that holds [undefined]
    read the same and are not distinguished. *)
Inductive JsVal : Type :=
| JUndefined
| JNull
| JBool (b : bool)
| JNum (n : JsNum)
| JBigInt (z : Z)
| JStr (s : string)
| JArr (elems : list JsVal)
| JObj (fields : list (string * JsVal)).

(** What a [throw] carries: an [Error] instance (of which only [message]
    is read), or any other value. *)
Inductive JsExn : Type :=
| ErrorObj (message : string)
| Thrown (v : JsVal).

(** Completion of an evaluation: normal, or abrupt by [throw]. *)
Inductive Exc (A : Type) : Type :=
| Returned (a : A)
| Threw (e : JsExn).
Arguments Returned {A} a.
Arguments Threw {A} e.

Definition Z_to_string (z : Z) : string := NilZero.string_of_int (Z.to_int z).

(** [Number::toString]: an integer prints in full, as JavaScript prints
    it below 10^21. *)
Definition NumberToString (n : JsNum) : string :=
  match n with
  | NaN => "NaN"
  | Int z => Z_to_string z
  | Infinity false => "Infinity"
  | Infinity true => "-Infinity"
  end.

(** [ToString], as used by template literals and [String(v)].  Arrays
    print as [join(",")], plain objects as [[object Object]]. *)
Fixpoint ToString (v : JsVal) : string :=
  match v with
  | JUndefined => "undefined"
  | JNull => "null"
  | JBool true => "true"
  | JBool false => "false"
  | JNum n => NumberToString n
  | JBigInt z => Z_to_string z
  | JStr s => s
  | JObj _ => "[object Object]"
  | JArr elems =>
      (fix join (l : list JsVal) : string :=
         match l with
         | [] => ""
         | x :: rest =>
             let sx := match x with
                       | JUndefined | JNull => ""
                       | _ => ToString x
                       end in
             match rest with
             | [] => sx
             | _ :: _ => sx ++ "," ++ join rest
             end
         end) elems
  end.

(** [ToBoolean]. *)
Definition truthy (v : JsVal) : bool :=
  match v with
  | JUndefined | JNull => false
  | JBool b => b
  | JNum NaN => false
  | JNum (Int z) => negb (z =? 0)
  | JNum (Infinity _) => true
  | JBigInt z => negb (z =? 0)
  | JStr s => negb (s =? "")%string
  | JArr _ | JObj _ => true
  end.

(** [a || b]. *)
Definition js_or (a b : JsVal) : JsVal := if truthy a then a else b.

Definition nullish (v : JsVal) : bool :=
  match v with
  | JUndefined | JNull => true
  | _ => false
  end.

Fixpoint assoc {A : Type} (k : string) (fs : list (string * A)) : option A :=
  match fs with
  | [] => None
  | (k', v) :: rest => if (k =? k')%string then Some v else assoc k rest
  end.

(** A property key that is a canonical array index. *)
Definition index_of_key (k : string) : option nat :=
  match NilEmpty.uint_of_string k with
  | Some u =>
      if (NilZero.string_of_uint (Decimal.unorm u) =? k)%string
      then Some (Nat.of_uint u) else None
  | None => None
  end.

(** Reading property [k] of a value that is neither [undefined] nor
    [null].  Primitives have no own property of the names this program
    reads, except the indices and [length] of a string. *)
Definition member (v : JsVal) (k : string) : JsVal :=
  match v with
  | JObj fields =>
      match assoc k fields with
      | Some x => x
      | None => JUndefined
      end
  | JArr elems =>
      match index_of_key k with
      | Some i => nth i elems JUndefined
      | None =>
          if (k =? "length")%string
          then JNum (Int (Z.of_nat (List.length elems))) else JUndefined
      end
  | JStr s =>
      match index_of_key k with
      | Some i =>
          match String.get i s with
          | Some c => JStr (String c EmptyString)
          | None => JUndefined
          end
      | None =>
          if (k =? "length")%string
          then JNum (Int (Z.of_nat (String.length s))) else JUndefined
      end
  | _ => JUndefined
  end.

(** The message of the [TypeError] raised by a property read on
    [undefined] or [null] (wording of V8). *)
Definition typeError_read (v : JsVal) (k : string) : JsExn :=
  ErrorObj ("Cannot read properties of " ++ ToString v
            ++ " (reading '" ++ k ++ "')").

(** [v.k] *)
Definition get (v : JsVal) (k : string) : Exc JsVal :=
  if nullish v then Threw (typeError_read v k) else Returned (member v k).

(** [v?.k] *)
Definition get_opt (v : JsVal) (k : string) : JsVal :=
  if nullish v then JUndefined else member v k.

(** The magnitude of the double nearest to the non-negative integer [n]:
    [n] itself below 2^53, and beyond that [n] rounded to 53 significant
    bits, ties to the even significand. *)
Definition round_magnitude (n : Z) : Z :=
  if n <? 2 ^ 53 then n
  else
    let unit := 2 ^ (Z.log2 n - 52) in
    let q := n / unit in
    let r := n mod unit in
    if (unit <? 2 * r) || ((2 * r =? unit) && Z.odd q)
    then (q + 1) * unit
    else q * unit.

(** [Number(z)] for a BigInt [z]: the nearest double, an infinity from
    magnitude 2^1024 on. *)
Definition Number_of_BigInt (z : Z) : JsNum :=
  let m := round_magnitude (Z.abs z) in
  if 2 ^ 1024 <=? m then Infinity (z <? 0) else Int (Z.sgn z * m).

(** The [Number(v)] conversion, over the runtime's [StringToNumber] for
    string operands.  A BigInt is rounded to the nearest double.  Objects
    and arrays go through [ToPrimitive], which for JSON-shaped values is
    their [toString]. *)
Definition ToNumber (StringToNumber : string -> JsNum) (v : JsVal) : JsNum :=
  match v with
  | JUndefined => NaN
  | JNull => Int 0
  | JBool true => Int 1
  | JBool false => Int 0
  | JNum n => n
  | JBigInt z => Number_of_BigInt z
  | JStr s => StringToNumber s
  | JArr _ | JObj _ => StringToNumber (ToString v)
  end.

(** [a >= b] on two numeric values: false as soon as either side is
    [NaN]. *)
Definition num_ge (a b : JsNum) : bool :=
  match a, b with
  | Int x, Int y => y <=? x
  | Infinity false, Int _ => true
  | Infinity false, Infinity _ => true
  | Int _, Infinity true => true
  | Infinity true, Infinity true => true
  | _, _ => false
  end.

(** [a <= b] *)
Definition num_le (a b : JsNum) : bool := num_ge b a.

(** [a >= b] for a left operand that is a Number.  A BigInt on the right
    is compared by its exact value; anything else is converted with
    [ToNumber]. *)
Definition js_ge (StringToNumber : string -> JsNum) (a : JsNum) (b : JsVal)
  : bool :=
  match b with
  | JBigInt z => num_ge a (Int z)
  | _ => num_ge a (ToNumber StringToNumber b)
  end.

(** [a > b] on two Numbers. *)
Definition num_gt (a b : JsNum) : bool :=
  match a, b with
  | Int x, Int y => y <? x
  | Infinity false, Int _ => true
  | Infinity false, Infinity true => true
  | Int _, Infinity true => true
  | _, _ => false
  end.

(** *** [parseInt] with no radix argument *)

(** The white space and line terminators of the ASCII range. *)
Definition is_whitespace (c : ascii) : bool :=
  let n := nat_of_ascii c in
  ((n =? 9) || (n =? 10) || (n =? 11) || (n =? 12) || (n =? 13)
   || (n =? 32))%nat.

Fixpoint trim_start (s : string) : string :=
  match s with
  | EmptyString => s
  | String c rest => if is_whitespace c then trim_start rest else s
  end.

Definition digit_value (c : ascii) : option Z :=
  let n := Z.of_nat (nat_of_ascii c) in
  if (48 <=? n) && (n <=? 57) then Some (n - 48)
  else if (97 <=? n) && (n <=? 122) then Some (n - 87)
  else if (65 <=? n) && (n <=? 90) then Some (n - 55)
  else None.

(** Value of the longest prefix of digits of the radix; [acc] is [None]
    until a digit has been read. *)
Fixpoint parse_digits (radix : Z) (s : string) (acc : option Z) : option Z :=
  match s with
  | EmptyString => acc
  | String c rest =>
      match digit_value c with
      | Some d =>
          if d <? radix
          then parse_digits radix rest
                 (Some (match acc with
                        | Some a => a * radix + d
                        | None => d
                        end))
          else acc
      | None => acc
      end
  end.

Definition parseInt (input : string) : JsNum :=
  let s := trim_start input in
  let '(negative, s) :=
    match s with
    | String c rest =>
        if (c =? "-")%char then (true, rest)
        else if (c =? "+")%char then (false, rest)
        else (false, s)
    | EmptyString => (false, s)
    end in
  let '(radix, s) :=
    match s with
    | String c0 (String c1 rest) =>
        if ((c0 =? "0") && ((c1 =? "x") || (c1 =? "X")))%char
        then (16, rest) else (10, s)
    | _ => (10, s)
    end in
  match parse_digits radix s None with
  | Some n => Int (if negative then - n else n)
  | None => NaN
  end.

(** *** [String.prototype.replace] with a string pattern: the first
    occurrence only.  (The replacement used by the program has no [$].) *)

Fixpoint string_drop (n : nat) (s : string) : string :=
  match n, s with
  | O, _ => s
  | S n', String _ rest => string_drop n' rest
  | S _, EmptyString => EmptyString
  end.

Fixpoint replace_first (pattern replacement s : string) : string :=
  if String.prefix pattern s
  then replacement ++ string_drop (String.length pattern) s
  else match s with
       | EmptyString => s
       | String c rest => String c (replace_first pattern replacement rest)
       end.

(* ================================================================== *)
(** ** Byte buffers and base64 *)

Definition bytes := list Byte.byte.

(** [buffer.byteLength] *)
Definition byteLength (data : bytes) : Z := Z.of_nat (List.length data).

Module Base64.

Definition alphabet : list ascii :=
  list_ascii_of_string
    "ABCDEFGHIJKLMNOPQRSTUVWXYZabcdefghijklmnopqrstuvwxyz0123456789+/".

Definition pad : ascii := "="%char.

(** The character of a 6-bit group. *)
Definition char_of_sextet (n : N) : ascii := nth (N.to_nat n) alphabet pad.

(** [Buffer.prototype.toString("base64")]: RFC 4648 with padding,
    three octets to four characters. *)
Fixpoint encode_chars (data : bytes) : list ascii :=
  match data with
  | [] => []
  | [a] =>
      let n := (Byte.to_N a * 65536)%N in
      [char_of_sextet (n / 262144); char_of_sextet ((n / 4096) mod 64);
       pad; pad]
  | [a; b] =>
      let n := (Byte.to_N a * 65536 + Byte.to_N b * 256)%N in
      [char_of_sextet (n / 262144); char_of_sextet ((n / 4096) mod 64);
       char_of_sextet ((n / 64) mod 64); pad]
  | a :: b :: c :: rest =>
      let n := (Byte.to_N a * 65536 + Byte.to_N b * 256 + Byte.to_N c)%N in
      char_of_sextet (n / 262144) :: char_of_sextet ((n / 4096) mod 64)
      :: char_of_sextet ((n / 64) mod 64) :: char_of_sextet (n mod 64)
      :: encode_chars rest
  end.

Definition encode (data : bytes) : string :=
  string_of_list_ascii (encode_chars data).

(** The decoder of RFC 4648, written independently of the encoder: the
    value of a character is read off its code, not searched in
    [alphabet]. *)
Definition sextet_of_char (c : ascii) : option N :=
  let n := N_of_ascii c in
  (if (65 <=? n) && (n <=? 90) then Some (n - 65)
   else if (97 <=? n) && (n <=? 122) then Some (n - 71)
   else if (48 <=? n) && (n <=? 57) then Some (n + 4)
   else if n =? 43 then Some 62
   else if n =? 47 then Some 63
   else None)%N.

Definition byte_of_N (n : N) : Byte.byte :=
  match Byte.of_N n with
  | Some b => b
  | None => Byte.x00
  end.

Definition is_pad (c : ascii) : bool := (c =? pad)%char.

Fixpoint decode_chars (cs : list ascii) : option bytes :=
  match cs with
  | [] => Some []
  | c0 :: c1 :: c2 :: c3 :: rest =>
      match sextet_of_char c0, sextet_of_char c1 with
      | Some s0, Some s1 =>
          if is_pad c3 then
            match rest with
            | [] =>
                if is_pad c2
                then Some [byte_of_N (s0 * 4 + s1 / 16)%N]
                else
                  match sextet_of_char c2 with
                  | Some s2 =>
                      Some [byte_of_N (s0 * 4 + s1 / 16)%N;
                            byte_of_N ((s1 mod 16) * 16 + s2 / 4)%N]
                  | None => None
                  end
            | _ :: _ => None
            end
          else
            match sextet_of_char c2, sextet_of_char c3, decode_chars rest with
            | Some s2, Some s3, Some tail =>
                Some (byte_of_N (s0 * 4 + s1 / 16)%N
                      :: byte_of_N ((s1 mod 16) * 16 + s2 / 4)%N
                      :: byte_of_N ((s2 mod 4) * 64 + s3)%N
                      :: tail)
            | _, _, _ => None
            end
      | _, _ => None
      end
  | _ => None
  end.

Definition decode (s : string) : option bytes :=
  decode_chars (list_ascii_of_string s).

End Base64.

(* ================================================================== *)
(** ** The outside world and the effect monad *)

(** The part of a [fetch] response the program reads.  [json] is the
    completion of [response.json()], which throws on a malformed body. *)
Record FetchResponse : Type := {
  ok : bool;
  status : Z;
  json : Exc JsVal
}.

(** The part of an [axios] response the program reads; the body is the
    byte buffer requested with [responseType: "arraybuffer"]. *)
Record AxiosResponse : Type := {
  headers : list (string * string);
  data : bytes
}.

(** One entry per call that leaves the process. *)
Inductive Event : Type :=
| EvGetPlanBalance (planDid : string)
| EvGetAssetDDO (agentDid : string)
| EvOrderPlan (planDid : string)
| EvGetServiceAccessConfig (agentDid : string)
| EvLibCheckBalance (planDid agentDid : string)
| EvLibGetServiceAccess (agentDid : string)
| EvLibPurchasePlan (planDid : string)
| EvFetchPost (url authorization : string) (body : JsVal)
| EvAxiosGet (url : JsVal).

(** The generation backend is reached by [fetch] only. *)
Definition is_backend_call (ev : Event) : bool :=
  match ev with
  | EvFetchPost _ _ _ => true
  | _ => false
  end.

(** The collaborators of the process: the runtime's [StringToNumber],
    the [Payments] client held by [PaymentsManager], the [NeverminedMCP]
    object of the library-based server, [fetch] and [axios.get].  A tool
    invocation makes each call at most once, so an answer depends on the
    arguments only.  [Threw] is a rejected promise. *)
Record World : Type := {
  StringToNumber : string -> JsNum;
  payments_getPlanBalance : string -> Exc JsVal;
  payments_getAssetDDO : string -> Exc JsVal;
  payments_orderPlan : string -> Exc JsVal;
  payments_getServiceAccessConfig : string -> Exc JsVal;
  lib_checkBalance : string -> string -> Exc JsVal;
  lib_getServiceAccess : string -> Exc JsVal;
  lib_purchasePlan : string -> Exc JsVal;
  fetch_post : string -> string -> JsVal -> Exc FetchResponse;
  axios_get : JsVal -> Exc AxiosResponse
}.

Definition Trace : Type := list Event.

(** An [async] function body: reads the world, emits the calls it makes,
    and completes normally or by a [throw]. *)
Definition M (A : Type) : Type := World -> Exc A * Trace.

Definition ret {A : Type} (a : A) : M A := fun _ => (Returned a, []).

Definition throw {A : Type} (e : JsExn) : M A := fun _ => (Threw e, []).

Definition bind {A B : Type} (m : M A) (k : A -> M B) : M B :=
  fun w =>
    match m w with
    | (Returned a, t) => (fst (k a w), (t ++ snd (k a w))%list)
    | (Threw e, t) => (Threw e, t)
    end.

(** [try { m } catch (error) { handler error }] *)
Definition try_catch {A : Type} (m : M A) (handler : JsExn -> M A) : M A :=
  fun w =>
    match m w with
    | (Returned a, t) => (Returned a, t)
    | (Threw e, t) => (fst (handler e w), (t ++ snd (handler e w))%list)
    end.

(** A completion computed without leaving the process. *)
Definition lift {A : Type} (x : Exc A) : M A := fun _ => (x, []).

(** [await] of an external call: log it, take the world's answer. *)
Definition await_call {A : Type} (ev : Event) (answer : World -> Exc A) : M A :=
  fun w => (answer w, [ev]).

Definition runtime {A : Type} (f : World -> A) : M A :=
  fun w => (Returned (f w), []).

Declare Scope js_scope.
Delimit Scope js_scope with js.
Notation "x <- m ;; k" := (bind m (fun x => k))
  (at level 61, m at next level, right associativity) : js_scope.
Local Open Scope js_scope.

(** The completion of a computation and the calls it made. *)
Definition result_of {A : Type} (m : M A) (w : World) : Exc A := fst (m w).
Definition trace_of {A : Type} (m : M A) (w : World) : Trace := snd (m w).

(** No call of the trace reached the generation backend. *)
Definition backend_untouched (t : Trace) : bool :=
  negb (existsb is_backend_call t).

(** [error instanceof Error ? error.message : String(error)] *)
Definition error_message (e : JsExn) : string :=
  match e with
  | ErrorObj message => message
  | Thrown v => ToString v
  end.

(* ================================================================== *)
(** ** [services/video/service.ts] *)

Module VideoService.

(** [MediaGenerationResponse]; an optional field that is not set is
    [JUndefined]. *)
Record MediaGenerationResponse : Type := {
  success : bool;
  message : JsVal;
  imageUrl : JsVal;
  url : JsVal
}.

Record t : Type := {
  baseUrl : JsVal;
  accessToken : JsVal
}.

(** [new VideoService(baseUrl, accessToken)] *)
Definition new (baseUrl accessToken : JsVal) : t :=
  {| baseUrl := baseUrl; accessToken := accessToken |}.

Definition failure (error : JsExn) : M MediaGenerationResponse :=
  ret {| success := false;
         message := JStr (error_message error);
         imageUrl := JUndefined;
         url := JUndefined |}.

(** The POST shared by the three operations: [fetch], the [response.ok]
    test and [response.json()].  The logged body is the object handed to
    [JSON.stringify]. *)
Definition post (self : t) (endpoint : string) (body : JsVal) : M JsVal :=
  let target := ToString (baseUrl self) ++ endpoint in
  let authorization := "Bearer " ++ ToString (accessToken self) in
  response <- await_call (EvFetchPost target authorization body)
                (fun w => fetch_post w target authorization body) ;;
  if negb (ok response)
  then throw (ErrorObj ("HTTP error! status: " ++ Z_to_string (status response)))
  else lift (json response).

Definition generateText2Image (self : t) (prompt : string)
  : M MediaGenerationResponse :=
  try_catch
    (result <- post self "/api/generate/text2image"
                 (JObj [("prompt", JStr prompt)]) ;;
     image <- lift (get result "imageUrl") ;;
     ret {| success := true; message := JUndefined;
            imageUrl := image; url := JUndefined |})
    failure.

Definition generateImage2Image (self : t) (inputImageUrl prompt : string)
  : M MediaGenerationResponse :=
  try_catch
    (result <- post self "/api/generate/image2image"
                 (JObj [("inputImageUrl", JStr inputImageUrl);
                        ("prompt", JStr prompt)]) ;;
     image <- lift (get result "imageUrl") ;;
     ret {| success := true; message := JUndefined;
            imageUrl := image; url := JUndefined |})
    failure.

Definition generateText2Video (self : t) (prompt : string)
  (imageUrls duration : JsVal) : M MediaGenerationResponse :=
  try_catch
    (result <- post self "/api/generate/text2video"
                 (JObj [("prompt", JStr prompt);
                        ("imageUrls", imageUrls);
                        ("duration", duration)]) ;;
     video <- lift (get result "url") ;;
     ret {| success := true; message := JUndefined;
            imageUrl := JUndefined; url := video |})
    failure.

End VideoService.

(* ================================================================== *)
(** ** [services/nevermined/config.ts] *)

Module NEVERMINED_CONFIG.

Definition PLAN_DID : string :=
  "did:nv:bbc5556a932bdeb88bbe45045530e491ad428b351fb43c8bd4be04dba7878a3d".

Definition AGENT_DID : string :=
  "did:nv:2fa0a0c9ec6cd923827fe3657298ac9d8cd8cafb07120b10e94b2a26d962a793".

End NEVERMINED_CONFIG.

(* ================================================================== *)
(** ** [services/nevermined/manager.ts] *)

Module PaymentsManager.

Record ServiceAccessConfig : Type := {
  neverminedProxyUri : string;
  accessToken : JsVal
}.

Record OrderResult : Type := {
  success : bool;
  message : string
}.

(** [ddo?.service?.[2]?.attributes?.main?.nftAttributes
      ?.minCreditsRequired || 0] *)
Definition extractRequiredBalance (ddo : JsVal) : JsVal :=
  js_or
    (get_opt
       (get_opt
          (get_opt
             (get_opt (get_opt (get_opt ddo "service") "2") "attributes")
             "main")
          "nftAttributes")
       "minCreditsRequired")
    (JNum (Int 0)).

Definition checkBalance (planDid agentDid : string) : M bool :=
  try_catch
    (balanceResult <- await_call (EvGetPlanBalance planDid)
                        (fun w => payments_getPlanBalance w planDid) ;;
     agentDDO <- await_call (EvGetAssetDDO agentDid)
                   (fun w => payments_getAssetDDO w agentDid) ;;
     let minRequired := extractRequiredBalance agentDDO in
     balance <- lift (get balanceResult "balance") ;;
     toNum <- runtime StringToNumber ;;
     ret (js_ge toNum (ToNumber toNum balance) minRequired))
    (fun _ => ret false).

Definition orderPlan (planDid : string) : M OrderResult :=
  try_catch
    (purchaseResult <- await_call (EvOrderPlan planDid)
                         (fun w => payments_orderPlan w planDid) ;;
     if negb (truthy purchaseResult)
        || negb (truthy (member purchaseResult "success"))
     then ret {| success := false; message := "Failed to create order" |}
     else
       ret {| success := true;
              message := "Plan ordered successfully. Agreement ID: "
                         ++ ToString (member purchaseResult "agreementId") |})
    (fun error =>
       ret {| success := false; message := error_message error |}).

(** [uri.replace("https", "http")] on a value read from the access
    configuration: only a string has the method. *)
Definition call_replace (uri : JsVal) : Exc string :=
  match uri with
  | JStr s => Returned (replace_first "https" "http" s)
  | JUndefined | JNull => Threw (typeError_read uri "replace")
  | _ => Threw (ErrorObj
                  "accessConfig.neverminedProxyUri.replace is not a function")
  end.

Definition getServiceAccess (agentDid : string) : M ServiceAccessConfig :=
  try_catch
    (accessConfig <- await_call (EvGetServiceAccessConfig agentDid)
                       (fun w => payments_getServiceAccessConfig w agentDid) ;;
     if negb (truthy accessConfig)
        || negb (truthy (member accessConfig "accessToken"))
     then throw (ErrorObj "Failed to get service access configuration")
     else
       proxy <- lift (call_replace (member accessConfig "neverminedProxyUri")) ;;
       ret {| neverminedProxyUri := proxy;
              accessToken := member accessConfig "accessToken" |})
    (fun error => throw error).

Definition getVideoService (agentDid : string) : M VideoService.t :=
  accessConfig <- getServiceAccess agentDid ;;
  ret (VideoService.new (JStr (neverminedProxyUri accessConfig))
         (accessToken accessConfig)).

End PaymentsManager.

(* ================================================================== *)
(** ** Tool results *)

(** The [resource] of a content item: [{uri, blob, mimeType}] when the
    artifact is inlined, [{uri, text, mimeType}] when it is only
    referenced. *)
Inductive ResourceBody : Type :=
| Blob (base64 : string)
| Text (text : string).

Record Resource : Type := {
  uri : JsVal;
  body : ResourceBody;
  mimeType : string
}.

Inductive Content : Type :=
| TextContent (text : string)
| ImageContent (data : string) (mimeType : string)
| ResourceContent (resource : Resource).

Record Metadata : Type := {
  needsPurchase : bool;
  planDid : string
}.

(** What a tool handler returns; [isError] absent reads as [false]. *)
Record ToolResult : Type := {
  isError : bool;
  content : list Content;
  metadata : option Metadata
}.

Definition content_mimeType (c : Content) : option string :=
  match c with
  | TextContent _ => None
  | ImageContent _ mime => Some mime
  | ResourceContent r => Some (mimeType r)
  end.

Definition errorResult (text : string) : ToolResult :=
  {| isError := true; content := [TextContent text]; metadata := None |}.

Definition okResult (c : Content) : ToolResult :=
  {| isError := false; content := [c]; metadata := None |}.

(** *** [JSON.stringify({ planDid }, null, 2)] *)

Definition dquote : string := String (ascii_of_nat 34) EmptyString.
Definition backslash : string := String (ascii_of_nat 92) EmptyString.
Definition newline : string := String (ascii_of_nat 10) EmptyString.

Definition hex_digit (n : nat) : string :=
  String (nth n (list_ascii_of_string "0123456789abcdef") "0"%char) EmptyString.

(** [QuoteJSONString] without the surrounding quotes. *)
Fixpoint json_escape (s : string) : string :=
  match s with
  | EmptyString => EmptyString
  | String c rest =>
      let n := nat_of_ascii c in
      (if n =? 34 then backslash ++ dquote
       else if n =? 92 then backslash ++ backslash
       else if n =? 8 then backslash ++ "b"
       else if n =? 9 then backslash ++ "t"
       else if n =? 10 then backslash ++ "n"
       else if n =? 12 then backslash ++ "f"
       else if n =? 13 then backslash ++ "r"
       else if n <? 32
            then backslash ++ "u00" ++ hex_digit (n / 16) ++ hex_digit (n mod 16)
       else String c EmptyString)%nat
      ++ json_escape rest
  end.

Definition json_quote (s : string) : string :=
  dquote ++ json_escape s ++ dquote.

Definition stringify_planDid (plan : string) : string :=
  "{" ++ newline ++ "  " ++ json_quote "planDid" ++ ": " ++ json_quote plan
  ++ newline ++ "}".

(** The response every generation tool gives when the balance check is
    false (the same object literal in each handler). *)
Definition purchasePrompt (plan : string) : ToolResult :=
  {| isError := false;
     content :=
       [TextContent "Insufficient credits. Please purchase a plan using the purchase_plan tool with the following parameters:";
        TextContent (stringify_planDid plan)];
     metadata := Some {| needsPurchase := true; planDid := plan |} |}.

(** [Buffer.from(response.data)] and [Buffer.from(response.data,
    "binary")]: a buffer over the same octets (the second argument is
    ignored for a buffer and reads as offset 0 for an [ArrayBuffer]). *)
Definition Buffer_from (data : bytes) : bytes := data.

(** [response.headers[name]] *)
Definition header (response : AxiosResponse) (name : string) : JsVal :=
  match assoc name (headers response) with
  | Some v => JStr v
  | None => JUndefined
  end.

(** [v ? yes : no] for [v : string | null]; the empty string is falsy. *)
Definition if_string {A : Type} (v : option string) (yes : string -> A) (no : A)
  : A :=
  match v with
  | Some s => if (s =? "")%string then no else yes s
  | None => no
  end.

(** The validated arguments of a call to one of the three generation
    tools; [imageUrls] and [duration] are [JUndefined] when omitted. *)
Inductive GenerationRequest : Type :=
| Text2Image (prompt : string)
| Image2Image (inputImageUrl prompt : string)
| Text2Video (prompt : string) (imageUrls duration : JsVal).

(* ================================================================== *)
(** ** The server built on [@nevermined-io/mcp-payments-library] *)

Module LibServer.

(** [neverminedConfig] *)
Definition planDid : string := NEVERMINED_CONFIG.PLAN_DID.
Definition agentDid : string := NEVERMINED_CONFIG.AGENT_DID.

Definition downloadAsBase64 (url : JsVal) : M (option string) :=
  try_catch
    (response <- await_call (EvAxiosGet url) (fun w => axios_get w url) ;;
     let contentLength :=
       parseInt (ToString (js_or (header response "content-length")
                                 (JStr "0"))) in
     if num_gt contentLength (Int (1024 * 1024))
     then ret None
     else ret (Some (Base64.encode (Buffer_from (data response)))))
    (fun _ => ret None).

(** The library declares [message] as an optional string. *)
Definition purchase_plan (plan : string) : M ToolResult :=
  try_catch
    (purchaseResult <- await_call (EvLibPurchasePlan plan)
                         (fun w => lib_purchasePlan w plan) ;;
     ok <- lift (get purchaseResult "success") ;;
     if negb (truthy ok)
     then ret (errorResult
                 ("Error purchasing plan: "
                  ++ ToString (js_or (member purchaseResult "message")
                                     (JStr "Unknown error"))))
     else ret (okResult
                 (TextContent
                    (ToString
                       (js_or (member purchaseResult "message")
                          (JStr "Plan purchased successfully. You can now generate media."))))))
    (fun error =>
       ret (errorResult ("Error in plan purchase: " ++ error_message error))).

(** [neverminedMCP.getServiceAccess] followed by [new VideoService]. *)
Definition connect : M VideoService.t :=
  accessConfig <- await_call (EvLibGetServiceAccess agentDid)
                    (fun w => lib_getServiceAccess w agentDid) ;;
  proxy <- lift (get accessConfig "neverminedProxyUri") ;;
  token <- lift (get accessConfig "accessToken") ;;
  ret (VideoService.new proxy token).

Definition image_content (image : JsVal) (label : string)
  (imageBase64 : option string) : Content :=
  if_string imageBase64
    (fun b => ImageContent b "image/png")
    (ResourceContent
       {| uri := image; body := Text label; mimeType := "image/png" |}).

Definition text2image (prompt : string) : M ToolResult :=
  hasBalance <- await_call (EvLibCheckBalance planDid agentDid)
                  (fun w => lib_checkBalance w planDid agentDid) ;;
  if negb (truthy hasBalance) then ret (purchasePrompt planDid)
  else
    videoService <- connect ;;
    result <- VideoService.generateText2Image videoService prompt ;;
    if negb (VideoService.success result)
       || negb (truthy (VideoService.imageUrl result))
    then ret (errorResult
                ("Error generating image: "
                 ++ ToString (js_or (VideoService.message result)
                                    (JStr "No image URL returned"))))
    else
      imageBase64 <- downloadAsBase64 (VideoService.imageUrl result) ;;
      ret (okResult (image_content (VideoService.imageUrl result)
                       "Generated image" imageBase64)).

Definition image2image (inputImageUrl prompt : string) : M ToolResult :=
  try_catch
    (hasBalance <- await_call (EvLibCheckBalance planDid agentDid)
                     (fun w => lib_checkBalance w planDid agentDid) ;;
     if negb (truthy hasBalance) then ret (purchasePrompt planDid)
     else
       videoService <- connect ;;
       result <- VideoService.generateImage2Image videoService
                   inputImageUrl prompt ;;
       if negb (VideoService.success result)
          || negb (truthy (VideoService.imageUrl result))
       then ret (errorResult
                   ("Error transforming image: "
                    ++ ToString (js_or (VideoService.message result)
                                       (JStr "No image URL returned"))))
       else
         imageBase64 <- downloadAsBase64 (VideoService.imageUrl result) ;;
         ret (okResult (image_content (VideoService.imageUrl result)
                          "Transformed image" imageBase64)))
    (fun error =>
       ret (errorResult
              ("Error in image transformation: " ++ error_message error))).

(** The video is never downloaded here. *)
Definition text2video (prompt : string) (imageUrls duration : JsVal)
  : M ToolResult :=
  hasBalance <- await_call (EvLibCheckBalance planDid agentDid)
                  (fun w => lib_checkBalance w planDid agentDid) ;;
  if negb (truthy hasBalance) then ret (purchasePrompt planDid)
  else
    videoService <- connect ;;
    result <- VideoService.generateText2Video videoService prompt
                imageUrls duration ;;
    if negb (VideoService.success result)
       || negb (truthy (VideoService.url result))
    then ret (errorResult
                ("Error generating video: "
                 ++ ToString (js_or (VideoService.message result)
                                    (JStr "No video URL returned"))))
    else
      ret (okResult
             (ResourceContent
                {| uri := VideoService.url result;
                   body := Text "Generated video";
                   mimeType := "video/mp4" |})).

(** Dispatch of a generation request to the handler registered under
    the tool's name. *)
Definition callTool (request : GenerationRequest) : M ToolResult :=
  match request with
  | Text2Image prompt => text2image prompt
  | Image2Image inputImageUrl prompt => image2image inputImageUrl prompt
  | Text2Video prompt imageUrls duration => text2video prompt imageUrls duration
  end.

End LibServer.

(* ================================================================== *)
(** ** The server built on [PaymentsManager] *)

Module Server.

Import NEVERMINED_CONFIG.

Definition downloadAsBase64 (url : JsVal) : M (option string) :=
  try_catch
    (response <- await_call (EvAxiosGet url) (fun w => axios_get w url) ;;
     if 1024 * 1024 <? byteLength (data response)
     then ret None
     else ret (Some (Base64.encode (Buffer_from (data response)))))
    (fun error => throw error).

Definition purchase_plan (plan : string) : M ToolResult :=
  try_catch
    (purchaseResult <- PaymentsManager.orderPlan plan ;;
     if negb (PaymentsManager.success purchaseResult)
     then ret (errorResult
                 ("Error purchasing plan: "
                  ++ (if (PaymentsManager.message purchaseResult =? "")%string
                      then "Unknown error"
                      else PaymentsManager.message purchaseResult)))
     else ret (okResult
                 (TextContent
                    (if (PaymentsManager.message purchaseResult =? "")%string
                     then "Plan purchased successfully. You can now generate media."
                     else PaymentsManager.message purchaseResult))))
    (fun error =>
       ret (errorResult ("Error in plan purchase: " ++ error_message error))).

Definition media_content (artifact : JsVal) (mime tooLarge : string)
  (base64 : option string) : Content :=
  ResourceContent
    (if_string base64
       (fun b => {| uri := artifact; body := Blob b; mimeType := mime |})
       {| uri := artifact; body := Text tooLarge; mimeType := mime |}).

Definition text2image (prompt : string) : M ToolResult :=
  hasBalance <- PaymentsManager.checkBalance PLAN_DID AGENT_DID ;;
  if negb hasBalance then ret (purchasePrompt PLAN_DID)
  else
    videoService <- PaymentsManager.getVideoService AGENT_DID ;;
    result <- VideoService.generateText2Image videoService prompt ;;
    if negb (VideoService.success result)
       || negb (truthy (VideoService.imageUrl result))
    then ret (errorResult
                ("Error generating image: "
                 ++ ToString (js_or (VideoService.message result)
                                    (JStr "No image URL returned"))))
    else
      imageBase64 <- downloadAsBase64 (VideoService.imageUrl result) ;;
      ret (okResult
             (media_content (VideoService.imageUrl result) "image/jpeg"
                "Image too large to display directly" imageBase64)).

Definition image2image (inputImageUrl prompt : string) : M ToolResult :=
  try_catch
    (hasBalance <- PaymentsManager.checkBalance PLAN_DID AGENT_DID ;;
     if negb hasBalance then ret (purchasePrompt PLAN_DID)
     else
       videoService <- PaymentsManager.getVideoService AGENT_DID ;;
       result <- VideoService.generateImage2Image videoService
                   inputImageUrl prompt ;;
       if negb (VideoService.success result)
          || negb (truthy (VideoService.imageUrl result))
       then ret (errorResult
                   ("Error transforming image: "
                    ++ ToString (js_or (VideoService.message result)
                                       (JStr "No image URL returned"))))
       else
         imageBase64 <- downloadAsBase64 (VideoService.imageUrl result) ;;
         ret (okResult
                (media_content (VideoService.imageUrl result) "image/jpeg"
                   "Image too large to display directly" imageBase64)))
    (fun _ => ret (errorResult "Error transforming image")).

Definition text2video (prompt : string) (imageUrls duration : JsVal)
  : M ToolResult :=
  hasBalance <- PaymentsManager.checkBalance PLAN_DID AGENT_DID ;;
  if negb hasBalance then ret (purchasePrompt PLAN_DID)
  else
    videoService <- PaymentsManager.getVideoService AGENT_DID ;;
    result <- VideoService.generateText2Video videoService prompt
                imageUrls duration ;;
    if negb (VideoService.success result)
       || negb (truthy (VideoService.url result))
    then ret (errorResult
                ("Error generating video: "
                 ++ ToString (js_or (VideoService.message result)
                                    (JStr "No video URL returned"))))
    else
      videoBase64 <- downloadAsBase64 (VideoService.url result) ;;
      ret (okResult
             (media_content (VideoService.url result) "video/mp4"
                "Video too large to display directly" videoBase64)).

Definition callTool (request : GenerationRequest) : M ToolResult :=
  match request with
  | Text2Image prompt => text2image prompt
  | Image2Image inputImageUrl prompt => image2image inputImageUrl prompt
  | Text2Video prompt imageUrls duration => text2video prompt imageUrls duration
  end.

End Server.

(* ================================================================== *)
(** ** The operations of the broker *)

(** The public asynchronous methods of [PaymentsManager]. *)
Inductive BrokerOp : Type :=
| OpCheckBalance (planDid agentDid : string)
| OpOrderPlan (planDid : string)
| OpGetServiceAccess (agentDid : string)
| OpGetVideoService (agentDid : string).

(** The computation completes by a [throw] (the promise rejects). *)
Definition throws {A : Type} (m : M A) (w : World) : Prop :=
  exists e, result_of m w = Threw e.

Definition op_throws (op : BrokerOp) (w : World) : Prop :=
  match op with
  | OpCheckBalance plan agent => throws (PaymentsManager.checkBalance plan agent) w
  | OpOrderPlan plan => throws (PaymentsManager.orderPlan plan) w
  | OpGetServiceAccess agent => throws (PaymentsManager.getServiceAccess agent) w
  | OpGetVideoService agent => throws (PaymentsManager.getVideoService agent) w
  end.

(** The [VideoService] operation that serves a request, the field of its
    response that carries the artifact's URI, and the name of that field
    in the backend's JSON answer. *)
Definition generate (service : VideoService.t) (request : GenerationRequest)
  : M VideoService.MediaGenerationResponse :=
  match request with
  | Text2Image prompt => VideoService.generateText2Image service prompt
  | Image2Image inputImageUrl prompt =>
      VideoService.generateImage2Image service inputImageUrl prompt
  | Text2Video prompt imageUrls duration =>
      VideoService.generateText2Video service prompt imageUrls duration
  end.

Definition primaryUri (request : GenerationRequest)
  (response : VideoService.MediaGenerationResponse) : JsVal :=
  match request with
  | Text2Image _ | Image2Image _ _ => VideoService.imageUrl response
  | Text2Video _ _ _ => VideoService.url response
  end.

Definition primary_field (request : GenerationRequest) : string :=
  match request with
  | Text2Image _ | Image2Image _ _ => "imageUrl"
  | Text2Video _ _ _ => "url"
  end.

(** The request as it goes to the backend. *)
Definition request_endpoint (request : GenerationRequest) : string :=
  match request with
  | Text2Image _ => "/api/generate/text2image"
  | Image2Image _ _ => "/api/generate/image2image"
  | Text2Video _ _ _ => "/api/generate/text2video"
  end.

Definition request_body (request : GenerationRequest) : JsVal :=
  match request with
  | Text2Image prompt => JObj [("prompt", JStr prompt)]
  | Image2Image inputImageUrl prompt =>
      JObj [("inputImageUrl", JStr inputImageUrl); ("prompt", JStr prompt)]
  | Text2Video prompt imageUrls duration =>
      JObj [("prompt", JStr prompt); ("imageUrls", imageUrls);
            ("duration", duration)]
  end.

(** The backend answered the request with a 2xx status and the
    well-formed JSON body [answer]. *)
Definition backend_answered (service : VideoService.t)
  (request : GenerationRequest) (w : World) (answer : JsVal) : Prop :=
  exists response,
    fetch_post w
      (ToString (VideoService.baseUrl service) ++ request_endpoint request)
      ("Bearer " ++ ToString (VideoService.accessToken service))
      (request_body request)
    = Returned response
    /\ ok response = true
    /\ json response = Returned answer.

(** The MIME type each server attaches to the content of a tool result. *)
Definition Server_mime (request : GenerationRequest) : string :=
  match request with
  | Text2Image _ | Image2Image _ _ => "image/jpeg"
  | Text2Video _ _ _ => "video/mp4"
  end.

Definition LibServer_mime (request : GenerationRequest) : string :=
  match request with
  | Text2Image _ | Image2Image _ _ => "image/png"
  | Text2Video _ _ _ => "video/mp4"
  end.

(** The agent descriptor's entry read by [extractRequiredBalance], as a
    path from the root of the document. *)
Definition minCreditsRequired_path : list string :=
  ["service"; "2"; "attributes"; "main"; "nftAttributes"; "minCreditsRequired"].

Definition read_path (path : list string) (document : JsVal) : JsVal :=
  fold_left get_opt path document.

(** A JavaScript value that is the integer [z], as a Number or a BigInt. *)
Definition is_integer (v : JsVal) (z : Z) : Prop :=
  v = JNum (Int z) \/ v = JBigInt z.

(** An integer that a Number can hold: it is its own nearest double. *)
Definition is_double (z : Z) : Prop := Number_of_BigInt z = Int z.

(* ================================================================== *)
(** ** Sample worlds *)

Module Fixtures.

Definition unreachable {A : Type} : Exc A := Threw (ErrorObj "network error").

(** A [StringToNumber] for integer literals. *)
Definition integer_literal (s : string) : JsNum :=
  if (trim_start s =? "")%string then Int 0 else parseInt s.

(** Nothing answers. *)
Definition offline : World :=
  {| StringToNumber := integer_literal;
     payments_getPlanBalance := fun _ => unreachable;
     payments_getAssetDDO := fun _ => unreachable;
     payments_orderPlan := fun _ => unreachable;
     payments_getServiceAccessConfig := fun _ => unreachable;
     lib_checkBalance := fun _ _ => unreachable;
     lib_getServiceAccess := fun _ => unreachable;
     lib_purchasePlan := fun _ => unreachable;
     fetch_post := fun _ _ _ => unreachable;
     axios_get := fun _ => unreachable |}.

(** An agent descriptor asking for [credits] credits. *)
Definition descriptor (credits : JsVal) : JsVal :=
  JObj [("id", JStr NEVERMINED_CONFIG.AGENT_DID);
        ("service",
         JArr [JObj [("type", JStr "metadata")];
               JObj [("type", JStr "nft-sales")];
               JObj [("type", JStr "nft-access");
                     ("attributes",
                      JObj [("main",
                             JObj [("nftAttributes",
                                    JObj [("minCreditsRequired", credits)])])])]])].

Definition accessConfig : JsVal :=
  JObj [("neverminedProxyUri", JStr "https://proxy.testing.nevermined.app");
        ("accessToken", JStr "eyJhbGciOiJFUzI1NksifQ")].

Definition artifact_uri : string := "https://cdn.example.org/out/cat".

Definition backend_ok (body : JsVal) : Exc FetchResponse :=
  Returned {| ok := true; status := 200; json := Returned body |}.

Definition backend_status (code : Z) : Exc FetchResponse :=
  Returned {| ok := false; status := code; json := Returned JNull |}.

(** The three octets of "Man". *)
Definition small_artifact : bytes := [Byte.x4d; Byte.x61; Byte.x6e].

(** 1,048,576 zero octets, and one more. *)
Definition mebibyte_artifact : bytes := repeat Byte.x00 (N.to_nat 1048576).
Definition oversized_artifact : bytes := repeat Byte.x00 (N.to_nat 1048577).

(** The world of a funded account: balance [balance], an agent asking
    for 5 credits, a backend that answers [backend] and an artifact
    store that answers [download]. *)
Definition world (balance : JsVal) (access : Exc JsVal)
  (backend : Exc FetchResponse) (download : Exc AxiosResponse) : World :=
  {| StringToNumber := integer_literal;
     payments_getPlanBalance := fun _ => Returned (JObj [("balance", balance)]);
     payments_getAssetDDO := fun _ => Returned (descriptor (JNum (Int 5)));
     payments_orderPlan :=
       fun _ => Returned (JObj [("success", JBool true);
                                ("agreementId", JStr "0x7a1c")]);
     payments_getServiceAccessConfig := fun _ => access;
     lib_checkBalance :=
       fun _ _ => Returned (JBool (js_ge integer_literal
                                     (ToNumber integer_literal balance)
                                     (JNum (Int 5))));
     lib_getServiceAccess := fun _ => access;
     lib_purchasePlan :=
       fun _ => Returned (JObj [("success", JBool true)]);
     fetch_post := fun _ _ _ => backend;
     axios_get := fun _ => download |}.

Definition sample_uri : JsVal := JStr artifact_uri.

(** The client [getVideoService] builds from [accessConfig]. *)
Definition sample_service : VideoService.t :=
  VideoService.new (JStr "http://proxy.testing.nevermined.app")
    (JStr "eyJhbGciOiJFUzI1NksifQ").

Definition image_body : JsVal := JObj [("imageUrl", JStr artifact_uri)].
Definition video_body : JsVal := JObj [("url", JStr artifact_uri)].

Definition served (headers : list (string * string)) (data : bytes)
  : Exc AxiosResponse :=
  Returned {| headers := headers; data := data |}.

(** Enough credits, a working backend, a three-octet artifact. *)
Definition funded : World :=
  world (JBigInt 10) (Returned accessConfig) (backend_ok image_body)
    (served [("content-length", "3")] small_artifact).

(** Fewer credits than the agent asks for. *)
Definition underfunded : World :=
  world (JNum (Int 3)) (Returned accessConfig) (backend_ok image_body)
    (served [("content-length", "3")] small_artifact).

(** The access configuration comes without a token. *)
Definition tokenless : World :=
  world (JBigInt 10)
    (Returned (JObj [("neverminedProxyUri",
                      JStr "https://proxy.testing.nevermined.app")]))
    (backend_ok image_body)
    (served [("content-length", "3")] small_artifact).

(** The backend answers 200 with an empty JSON object. *)
Definition empty_answer : World :=
  world (JBigInt 10) (Returned accessConfig) (backend_ok (JObj []))
    (served [("content-length", "3")] small_artifact).

(** The artifact cannot be downloaded. *)
Definition broken_link : World :=
  world (JBigInt 10) (Returned accessConfig) (backend_ok image_body)
    (Threw (ErrorObj "Request failed with status code 404")).

(** The artifact has exactly 1,048,576 octets. *)
Definition mebibyte : World :=
  world (JBigInt 10) (Returned accessConfig) (backend_ok image_body)
    (served [("content-length", "1048576")] mebibyte_artifact).

(** The artifact has 1,048,577 octets and is served without a
    [content-length] header. *)
Definition oversized_unlabelled : World :=
  world (JBigInt 10) (Returned accessConfig) (backend_ok image_body)
    (served [("content-type", "image/jpeg")] oversized_artifact).

(** The same artifact served with its length. *)
Definition oversized : World :=
  world (JBigInt 10) (Returned accessConfig) (backend_ok image_body)
    (served [("content-length", "1048577")] oversized_artifact).

(** The backend answers 500. *)
Definition backend_down : World :=
  world (JBigInt 10) (Returned accessConfig) (backend_status 500)
    (served [("content-length", "3")] small_artifact).

(** The backend produced a video of 1,048,577 octets. *)
Definition large_video : World :=
  world (JBigInt 10) (Returned accessConfig) (backend_ok video_body)
    (served [("content-length", "1048577")] oversized_artifact).

(** The purchase is refused. *)
Definition refused : World :=
  {| StringToNumber := integer_literal;
     payments_getPlanBalance := payments_getPlanBalance underfunded;
     payments_getAssetDDO := payments_getAssetDDO underfunded;
     payments_orderPlan := fun _ => Returned (JObj [("success", JBool false)]);
     payments_getServiceAccessConfig := payments_getServiceAccessConfig underfunded;
     lib_checkBalance := lib_checkBalance underfunded;
     lib_getServiceAccess := lib_getServiceAccess underfunded;
     lib_purchasePlan := lib_purchasePlan underfunded;
     fetch_post := fetch_post underfunded;
     axios_get := axios_get underfunded |}.

End Fixtures.
(* ================================================================== *)
(** ** The tool handlers as one orchestration *)

(** The texts in which the handlers of the three tools differ. *)
Definition error_prefix (request : GenerationRequest) : string :=
  match request with
  | Text2Image _ => "Error generating image: "
  | Image2Image _ _ => "Error transforming image: "
  | Text2Video _ _ _ => "Error generating video: "
  end.

Definition missing_uri_text (request : GenerationRequest) : string :=
  match request with
  | Text2Image _ | Image2Image _ _ => "No image URL returned"
  | Text2Video _ _ _ => "No video URL returned"
  end.

Definition too_large_text (request : GenerationRequest) : string :=
  match request with
  | Text2Image _ | Image2Image _ _ => "Image too large to display directly"
  | Text2Video _ _ _ => "Video too large to display directly"
  end.

Definition reference_text (request : GenerationRequest) : string :=
  match request with
  | Text2Image _ => "Generated image"
  | Image2Image _ _ => "Transformed image"
  | Text2Video _ _ _ => "Generated video"
  end.

(** The control flow the three handlers of the [PaymentsManager]-based
    server share: balance, grant, generation, download. *)
Definition Server_flow (request : GenerationRequest) : M ToolResult :=
  hasBalance <- PaymentsManager.checkBalance NEVERMINED_CONFIG.PLAN_DID
                  NEVERMINED_CONFIG.AGENT_DID ;;
  if negb hasBalance then ret (purchasePrompt NEVERMINED_CONFIG.PLAN_DID)
  else
    videoService <- PaymentsManager.getVideoService NEVERMINED_CONFIG.AGENT_DID ;;
    result <- generate videoService request ;;
    if negb (VideoService.success result)
       || negb (truthy (primaryUri request result))
    then ret (errorResult
                (error_prefix request
                 ++ ToString (js_or (VideoService.message result)
                                    (JStr (missing_uri_text request)))))
    else
      base64 <- Server.downloadAsBase64 (primaryUri request result) ;;
      ret (okResult
             (Server.media_content (primaryUri request result)
                (Server_mime request) (too_large_text request) base64)).

(** [image2image] alone wraps the flow in a [try]/[catch]. *)
Definition Server_orchestrate (request : GenerationRequest) : M ToolResult :=
  match request with
  | Image2Image _ _ =>
      try_catch (Server_flow request)
        (fun _ => ret (errorResult "Error transforming image"))
  | _ => Server_flow request
  end.

(** The same for the library-based server, whose [text2video] returns
    the reference without a download. *)
Definition LibServer_flow (request : GenerationRequest) : M ToolResult :=
  hasBalance <- await_call (EvLibCheckBalance LibServer.planDid LibServer.agentDid)
                  (fun w => lib_checkBalance w LibServer.planDid LibServer.agentDid) ;;
  if negb (truthy hasBalance) then ret (purchasePrompt LibServer.planDid)
  else
    videoService <- LibServer.connect ;;
    result <- generate videoService request ;;
    if negb (VideoService.success result)
       || negb (truthy (primaryUri request result))
    then ret (errorResult
                (error_prefix request
                 ++ ToString (js_or (VideoService.message result)
                                    (JStr (missing_uri_text request)))))
    else
      match request with
      | Text2Video _ _ _ =>
          ret (okResult
                 (ResourceContent
                    {| uri := primaryUri request result;
                       body := Text (reference_text request);
                       mimeType := LibServer_mime request |}))
      | _ =>
          base64 <- LibServer.downloadAsBase64 (primaryUri request result) ;;
          ret (okResult
                 (LibServer.image_content (primaryUri request result)
                    (reference_text request) base64))
      end.

Definition LibServer_orchestrate (request : GenerationRequest) : M ToolResult :=
  match request with
  | Image2Image _ _ =>
      try_catch (LibServer_flow request)
        (fun error =>
           ret (errorResult
                  ("Error in image transformation: " ++ error_message error)))
  | _ => LibServer_flow request
  end.

(** The invocation got as far as downloading [artifact]: the balance
    check passed, a client was obtained, and the backend's response was a
    success carrying the truthy URI [artifact]. *)
Definition reaches_download (w : World) (request : GenerationRequest)
  (artifact : JsVal) : Prop :=
  result_of (PaymentsManager.checkBalance NEVERMINED_CONFIG.PLAN_DID
               NEVERMINED_CONFIG.AGENT_DID) w = Returned true
  /\ exists service response,
       result_of (PaymentsManager.getVideoService NEVERMINED_CONFIG.AGENT_DID) w
       = Returned service
       /\ result_of (generate service request) w = Returned response
       /\ VideoService.success response = true
       /\ truthy (primaryUri request response) = true
       /\ artifact = primaryUri request response.

(** The artifact store is reached by [axios.get] only. *)
Definition is_download_call (ev : Event) : bool :=
  match ev with
  | EvAxiosGet _ => true
  | _ => false
  end.

Definition downloads_nothing (t : Trace) : bool :=
  negb (existsb is_download_call t).

(** The payment-service calls that spend or grant something. *)
Definition is_purchase_call (ev : Event) : bool :=
  match ev with
  | EvOrderPlan _ | EvLibPurchasePlan _ => true
  | _ => false
  end.

(** [pattern] occurs somewhere in [s]. *)
Fixpoint occurs (pattern s : string) : bool :=
  if String.prefix pattern s then true
  else match s with
       | EmptyString => false
       | String _ rest => occurs pattern rest
       end.

(** The same for the library-based server. *)
Definition lib_reaches_download (w : World) (request : GenerationRequest)
  (artifact : JsVal) : Prop :=
  (exists hasBalance,
      lib_checkBalance w LibServer.planDid LibServer.agentDid
      = Returned hasBalance
      /\ truthy hasBalance = true)
  /\ exists service response,
       result_of LibServer.connect w = Returned service
       /\ result_of (generate service request) w = Returned response
       /\ VideoService.success response = true
       /\ truthy (primaryUri request response) = true
       /\ artifact = primaryUri request response.

(** The length the library-based server reads off a response:
    [parseInt(response.headers["content-length"] || "0")]. *)
Definition declared_length (response : AxiosResponse) : JsNum :=
  parseInt (ToString (js_or (header response "content-length") (JStr "0"))).

(* ================================================================== *)
(** ** Start-up: [validateConfig] and the [PaymentsManager] singleton *)

Module Startup.

(** [validateConfig()], over the value of [process.env.NVM_API_KEY]. *)
Definition validateConfig (apiKey : JsVal) : Exc unit :=
  if negb (truthy apiKey)
  then Threw (ErrorObj "NVM_API_KEY is not set")
  else Returned tt.

(** The static field [PaymentsManager.instance] and the number of times
    the constructor has run.  A manager is identified by the run of the
    constructor that made it. *)
Record Process : Type := {
  instance : option nat;
  constructions : nat
}.

Definition fresh : Process := {| instance := None; constructions := 0 |}.

(** [connect n] is the completion of [Payments.getInstance(...)] in the
    [n]-th run of the constructor. *)
Definition getInstance (connect : nat -> Exc unit) (p : Process)
  : Exc nat * Process :=
  match instance p with
  | Some manager => (Returned manager, p)
  | None =>
      match connect (constructions p) with
      | Returned _ =>
          (Returned (constructions p),
           {| instance := Some (constructions p);
              constructions := S (constructions p) |})
      | Threw e =>
          (Threw e, {| instance := None; constructions := S (constructions p) |})
      end
  end.

(** The module body of the [PaymentsManager]-based server up to the
    manager: [validateConfig(); ... PaymentsManager.getInstance()]. *)
Definition load (apiKey : JsVal) (connect : nat -> Exc unit) (p : Process)
  : Exc nat * Process :=
  match validateConfig apiKey with
  | Threw e => (Threw e, p)
  | Returned _ => getInstance connect p
  end.

(** The completions of [n] successive calls of [getInstance]. *)
Fixpoint getInstances (connect : nat -> Exc unit) (n : nat) (p : Process)
  : list (Exc nat) * Process :=
  match n with
  | O => ([], p)
  | S n' =>
      let '(first, p1) := getInstance connect p in
      let '(others, p2) := getInstances connect n' p1 in
      (first :: others, p2)
  end.

End Startup.

(** More sample worlds. *)
Module MoreFixtures.

Import Fixtures.

(** Twice the credits of [funded]. *)
Definition wealthy : World :=
  world (JBigInt 20) (Returned accessConfig) (backend_ok image_body)
    (served [("content-length", "3")] small_artifact).

(** A grant whose proxy URI has [https] in its path only. *)
Definition plain_proxy : World :=
  world (JBigInt 10)
    (Returned (JObj [("neverminedProxyUri", JStr "http://proxy.local/https-docs");
                     ("accessToken", JStr "eyJhbGciOiJFUzI1NksifQ")]))
    (backend_ok image_body)
    (served [("content-length", "3")] small_artifact).

(** A grant with a token and no proxy URI. *)
Definition proxyless : World :=
  world (JBigInt 10)
    (Returned (JObj [("accessToken", JStr "eyJhbGciOiJFUzI1NksifQ")]))
    (backend_ok image_body)
    (served [("content-length", "3")] small_artifact).

(** A grant whose proxy URI has no [https] at all. *)
Definition local_proxy : World :=
  world (JBigInt 10)
    (Returned (JObj [("neverminedProxyUri", JStr "http://localhost:3000");
                     ("accessToken", JStr "eyJhbGciOiJFUzI1NksifQ")]))
    (backend_ok image_body)
    (served [("content-length", "3")] small_artifact).

(** The payments client cannot be built twice, then it can. *)
Definition third_time_lucky (attempt : nat) : Exc unit :=
  if (attempt <? 2)%nat then Threw (ErrorObj "invalid API key") else Returned tt.

(** The artifact is empty. *)
Definition empty_artifact : World :=
  world (JBigInt 10) (Returned accessConfig) (backend_ok image_body)
    (served [("content-length", "0")] []).


(** An agent descriptor with two services only. *)
Definition short_descriptor : JsVal :=
  JObj [("service", JArr [JObj [("type", JStr "metadata")];
                          JObj [("type", JStr "nft-sales")]])].

End MoreFixtures.

(* ================================================================== *)
(** * Properties *)

(** ** Base64 *)

Module Base64Facts.

Import Base64.

Lemma sextet_of_char_of_sextet (n : N) :
  (n < 64)%N -> sextet_of_char (char_of_sextet n) = Some n.
Proof.
  intros H.
  destruct n as [|p]; [reflexivity|].
  do 6 (destruct p as [p|p|]; try reflexivity); lia.
Qed.

Lemma char_of_sextet_not_pad (n : N) :
  (n < 64)%N -> is_pad (char_of_sextet n) = false.
Proof.
  intros H.
  destruct n as [|p]; [reflexivity|].
  do 6 (destruct p as [p|p|]; try reflexivity); lia.
Qed.

Lemma is_pad_pad : is_pad pad = true.
Proof. reflexivity. Qed.

Lemma byte_of_to_N (b : Byte.byte) : byte_of_N (Byte.to_N b) = b.
Proof. unfold byte_of_N. now rewrite Byte.of_to_N. Qed.

Lemma to_N_lt_256 (b : Byte.byte) : (Byte.to_N b < 256)%N.
Proof. pose proof (Byte.to_N_bounded b). lia. Qed.

(** Induction over a buffer three octets at a time. *)
Lemma bytes_ind3 (P : bytes -> Prop) :
  P [] ->
  (forall a, P [a]) ->
  (forall a b, P [a; b]) ->
  (forall a b c rest, P rest -> P (a :: b :: c :: rest)) ->
  forall data, P data.
Proof.
  intros H0 H1 H2 H3 data.
  enough (P data /\ (forall a, P (a :: data)) /\ (forall a b, P (a :: b :: data)))
    as [H _] by exact H.
  induction data as [|x data [IH0 [IH1 IH2]]].
  - repeat split; auto.
  - repeat split; auto.
Qed.

Section Groups.

Variables a b c : N.
Hypothesis Ha : (a < 256)%N.
Hypothesis Hb : (b < 256)%N.
Hypothesis Hc : (c < 256)%N.

Let n : N := (a * 65536 + b * 256 + c)%N.

Lemma group_bounds :
  (n / 262144 < 64 /\ (n / 4096) mod 64 < 64
   /\ (n / 64) mod 64 < 64 /\ n mod 64 < 64)%N.
Proof.
  unfold n. repeat split;
    try (apply N.mod_upper_bound; discriminate).
  apply N.Div0.div_lt_upper_bound. lia.
Qed.

Lemma group_first :
  (n / 262144 * 4 + (n / 4096) mod 64 / 16 = a)%N.
Proof. unfold n. zify. Z.to_euclidean_division_equations. lia. Qed.

Lemma group_second :
  (((n / 4096) mod 64) mod 16 * 16 + (n / 64) mod 64 / 4 = b)%N.
Proof. unfold n. zify. Z.to_euclidean_division_equations. lia. Qed.

Lemma group_third :
  (((n / 64) mod 64) mod 4 * 64 + n mod 64 = c)%N.
Proof. unfold n. zify. Z.to_euclidean_division_equations. lia. Qed.

End Groups.

Ltac use_group x y z :=
  let B := fresh "B" in
  pose proof (group_bounds x y z) as B;
  pose proof (group_first x y z) as B1;
  pose proof (group_second x y z) as B2;
  pose proof (group_third x y z) as B3;
  cbv zeta in B, B1, B2, B3;
  repeat match goal with
         | H : (?u < 256)%N -> _ |- _ =>
             specialize (H ltac:(first [apply to_N_lt_256 | reflexivity]))
         end;
  destruct B as (S0 & S1 & S2 & S3).

Lemma decode_encode_chars (data : bytes) :
  decode_chars (encode_chars data) = Some data.
Proof.
  induction data as [| x | x y | x y z rest IH] using bytes_ind3.
  - reflexivity.
  - cbn [encode_chars].
    replace (Byte.to_N x * 65536)%N
      with (Byte.to_N x * 65536 + 0 * 256 + 0)%N by lia.
    use_group (Byte.to_N x) 0%N 0%N.
    cbn [decode_chars].
    rewrite !sextet_of_char_of_sextet, !is_pad_pad by assumption.
    now rewrite B1, byte_of_to_N.
  - cbn [encode_chars].
    replace (Byte.to_N x * 65536 + Byte.to_N y * 256)%N
      with (Byte.to_N x * 65536 + Byte.to_N y * 256 + 0)%N by lia.
    use_group (Byte.to_N x) (Byte.to_N y) 0%N.
    cbn [decode_chars].
    rewrite !sextet_of_char_of_sextet, !is_pad_pad by assumption.
    rewrite char_of_sextet_not_pad by assumption.
    now rewrite B1, B2, !byte_of_to_N.
  - cbn [encode_chars].
    use_group (Byte.to_N x) (Byte.to_N y) (Byte.to_N z).
    cbn [decode_chars]. fold decode_chars.
    rewrite !sextet_of_char_of_sextet by assumption.
    rewrite char_of_sextet_not_pad by assumption.
    now rewrite IH, B1, B2, B3, !byte_of_to_N.
Qed.

(** Decoding the encoding of a buffer gives the buffer back. *)
Lemma decode_encode (data : bytes) : decode (encode data) = Some data.
Proof.
  unfold decode, encode.
  rewrite list_ascii_of_string_of_list_ascii.
  apply decode_encode_chars.
Qed.

(** The encoding has four characters per started group of three
    octets; it is empty only for the empty buffer. *)
Lemma encode_empty_iff (data : bytes) :
  encode data = EmptyString <-> data = [].
Proof.
  split; [|now intros ->].
  destruct data as [|x [|y [|z rest]]]; try reflexivity; discriminate.
Qed.

End Base64Facts.

(** ** The effect monad *)

Section MonadFacts.

Context {A B : Type}.

Lemma result_of_bind (m : M A) (k : A -> M B) (w : World) :
  result_of (bind m k) w =
  match result_of m w with
  | Returned a => result_of (k a) w
  | Threw e => Threw e
  end.
Proof.
  unfold result_of, bind. now destruct (m w) as [[a|e] t].
Qed.

Lemma trace_of_bind (m : M A) (k : A -> M B) (w : World) :
  trace_of (bind m k) w =
  (trace_of m w ++
   match result_of m w with
   | Returned a => trace_of (k a) w
   | Threw _ => []
   end)%list.
Proof.
  unfold trace_of, result_of, bind.
  destruct (m w) as [[a|e] t]; cbn; [reflexivity | now rewrite app_nil_r].
Qed.

Lemma result_of_try_catch (m : M A) (handler : JsExn -> M A) (w : World) :
  result_of (try_catch m handler) w =
  match result_of m w with
  | Returned a => Returned a
  | Threw e => result_of (handler e) w
  end.
Proof.
  unfold result_of, try_catch. now destruct (m w) as [[a|e] t].
Qed.

Lemma trace_of_try_catch (m : M A) (handler : JsExn -> M A) (w : World) :
  trace_of (try_catch m handler) w =
  (trace_of m w ++
   match result_of m w with
   | Returned _ => []
   | Threw e => trace_of (handler e) w
   end)%list.
Proof.
  unfold trace_of, result_of, try_catch.
  destruct (m w) as [[a|e] t]; cbn; [now rewrite app_nil_r | reflexivity].
Qed.

Lemma result_of_await_call (ev : Event) (answer : World -> Exc A) (w : World) :
  result_of (await_call ev answer) w = answer w.
Proof. reflexivity. Qed.

Lemma trace_of_await_call (ev : Event) (answer : World -> Exc A) (w : World) :
  trace_of (await_call ev answer) w = [ev].
Proof. reflexivity. Qed.

Lemma result_of_ret (a : A) (w : World) : result_of (ret a) w = Returned a.
Proof. reflexivity. Qed.

Lemma trace_of_ret (a : A) (w : World) : trace_of (ret a) w = [].
Proof. reflexivity. Qed.

Lemma result_of_throw (e : JsExn) (w : World) :
  result_of (@throw A e) w = Threw e.
Proof. reflexivity. Qed.

Lemma trace_of_throw (e : JsExn) (w : World) : trace_of (@throw A e) w = [].
Proof. reflexivity. Qed.

Lemma result_of_lift (x : Exc A) (w : World) : result_of (lift x) w = x.
Proof. reflexivity. Qed.

Lemma trace_of_lift (x : Exc A) (w : World) : trace_of (lift x) w = [].
Proof. reflexivity. Qed.

Lemma result_of_runtime (f : World -> A) (w : World) :
  result_of (runtime f) w = Returned (f w).
Proof. reflexivity. Qed.

Lemma trace_of_runtime (f : World -> A) (w : World) :
  trace_of (runtime f) w = [].
Proof. reflexivity. Qed.

End MonadFacts.

Create Rewrite HintDb run.
#[local] Hint Rewrite
  @result_of_bind @result_of_try_catch @result_of_await_call @result_of_ret
  @result_of_throw @result_of_lift @result_of_runtime
  @trace_of_bind @trace_of_try_catch @trace_of_await_call @trace_of_ret
  @trace_of_throw @trace_of_lift @trace_of_runtime
  app_nil_r : run.

(** Push [result_of] and [trace_of] through the monad's operations, and
    split on the completions met on the way. *)
Ltac run := repeat (autorewrite with run; cbn beta iota).

Ltac split_completion :=
  match goal with
  | |- context [match ?x with Returned _ => _ | Threw _ => _ end] =>
      let E := fresh "E" in destruct x eqn:E
  end.

Lemma backend_untouched_app (t1 t2 : Trace) :
  backend_untouched (t1 ++ t2)%list =
  backend_untouched t1 && backend_untouched t2.
Proof.
  unfold backend_untouched. now rewrite existsb_app, negb_orb.
Qed.

(* ================================================================== *)
(** ** Numbers: [Number(bigint)] and the comparisons *)

Lemma unit_facts (n : Z) :
  2 ^ 53 <= n ->
  let unit := 2 ^ (Z.log2 n - 52) in
  0 < unit /\ 2 ^ 52 * unit <= n < 2 ^ 53 * unit.
Proof.
  intros Hn. cbv zeta.
  assert (0 < n) as Hpos by (pose proof (Z.pow_pos_nonneg 2 53); lia).
  pose proof (Z.log2_spec n Hpos) as [Hlo Hhi].
  assert (53 <= Z.log2 n) as Hlog.
  { apply Z.log2_le_pow2; lia. }
  split; [apply Z.pow_pos_nonneg; lia|].
  rewrite <- !Z.pow_add_r by lia.
  replace (52 + (Z.log2 n - 52)) with (Z.log2 n) by lia.
  replace (53 + (Z.log2 n - 52)) with (Z.succ (Z.log2 n)) by lia.
  lia.
Qed.

Lemma round_magnitude_bounds (n : Z) :
  2 ^ 53 <= n ->
  2 ^ Z.log2 n <= round_magnitude n <= 2 ^ (Z.log2 n + 1).
Proof.
  intros Hn. unfold round_magnitude.
  destruct (Z.ltb_spec n (2 ^ 53)); [lia|].
  pose proof (unit_facts n Hn) as (Hu & Hlo & Hhi). cbv zeta in *.
  assert (53 <= Z.log2 n) as Hlog.
  { apply Z.log2_le_pow2; [|lia]. pose proof (Z.pow_pos_nonneg 2 53); lia. }
  set (unit := 2 ^ (Z.log2 n - 52)) in *.
  assert (2 ^ Z.log2 n = 2 ^ 52 * unit) as E1.
  { unfold unit. rewrite <- Z.pow_add_r by lia. f_equal. lia. }
  assert (2 ^ (Z.log2 n + 1) = 2 ^ 53 * unit) as E2.
  { unfold unit. rewrite <- Z.pow_add_r by lia. f_equal. lia. }
  rewrite E1, E2.
  pose proof (Z.div_mod n unit ltac:(lia)) as Hdm.
  pose proof (Z.mod_pos_bound n unit Hu) as Hr.
  set (q := n / unit) in *. set (r := n mod unit) in *.
  assert (2 ^ 52 <= q < 2 ^ 53) as Hq by (split; nia).
  destruct (_ || _); nia.
Qed.

Lemma round_magnitude_same_unit (a b unit : Z) :
  0 < unit -> 0 <= a <= b ->
  (if (unit <? 2 * (a mod unit)) || ((2 * (a mod unit) =? unit) && Z.odd (a / unit))
   then (a / unit + 1) * unit else a / unit * unit)
  <=
  (if (unit <? 2 * (b mod unit)) || ((2 * (b mod unit) =? unit) && Z.odd (b / unit))
   then (b / unit + 1) * unit else b / unit * unit).
Proof.
  intros Hu Hab.
  pose proof (Z.div_mod a unit ltac:(lia)) as Ha.
  pose proof (Z.div_mod b unit ltac:(lia)) as Hb.
  pose proof (Z.mod_pos_bound a unit Hu) as Hra.
  pose proof (Z.mod_pos_bound b unit Hu) as Hrb.
  assert (a / unit <= b / unit) as Hq by (apply Z.div_le_mono; lia).
  set (qa := a / unit) in *. set (qb := b / unit) in *.
  set (ra := a mod unit) in *. set (rb := b mod unit) in *.
  destruct (Z.eq_dec qa qb) as [Heq | Hneq].
  - rewrite <- Heq in *.
    assert (ra <= rb) by nia.
    destruct (Z.ltb_spec unit (2 * ra)), (Z.ltb_spec unit (2 * rb)),
      (Z.eqb_spec (2 * ra) unit), (Z.eqb_spec (2 * rb) unit),
      (Z.odd qa); cbn; nia.
  - assert (qa + 1 <= qb) by lia.
    destruct (_ || _), (_ || _); nia.
Qed.

Lemma round_magnitude_monotone (a b : Z) :
  0 <= a <= b -> round_magnitude a <= round_magnitude b.
Proof.
  intros Hab.
  destruct (Z.lt_ge_cases b (2 ^ 53)) as [Hb | Hb].
  - unfold round_magnitude.
    destruct (Z.ltb_spec a (2 ^ 53)), (Z.ltb_spec b (2 ^ 53)); lia.
  - destruct (Z.lt_ge_cases a (2 ^ 53)) as [Ha | Ha].
    + pose proof (round_magnitude_bounds b Hb) as [Hlo _].
      assert (2 ^ 53 <= 2 ^ Z.log2 b).
      { apply Z.pow_le_mono_r; [lia|]. apply Z.log2_le_pow2; [|lia].
        pose proof (Z.pow_pos_nonneg 2 53); lia. }
      unfold round_magnitude at 1.
      destruct (Z.ltb_spec a (2 ^ 53)); lia.
    + assert (Z.log2 a <= Z.log2 b) as Hlog by (apply Z.log2_le_mono; lia).
      destruct (Z.eq_dec (Z.log2 a) (Z.log2 b)) as [Heq | Hneq].
      * unfold round_magnitude.
        destruct (Z.ltb_spec a (2 ^ 53)), (Z.ltb_spec b (2 ^ 53)); try lia.
        cbv zeta. rewrite Heq.
        apply round_magnitude_same_unit; [|lia].
        apply Z.pow_pos_nonneg; [lia|].
        assert (53 <= Z.log2 b); [|lia].
        apply Z.log2_le_pow2; [|lia]. pose proof (Z.pow_pos_nonneg 2 53); lia.
      * pose proof (round_magnitude_bounds a Ha) as [_ Hhi].
        pose proof (round_magnitude_bounds b Hb) as [Hlo _].
        assert (2 ^ (Z.log2 a + 1) <= 2 ^ Z.log2 b).
        { apply Z.pow_le_mono_r; lia. }
        lia.
Qed.

Lemma round_magnitude_pos (n : Z) : 0 < n -> 0 < round_magnitude n.
Proof.
  intros Hn. destruct (Z.lt_ge_cases n (2 ^ 53)) as [H | H].
  - unfold round_magnitude. destruct (Z.ltb_spec n (2 ^ 53)); lia.
  - pose proof (round_magnitude_bounds n H) as [Hlo _].
    pose proof (Z.pow_pos_nonneg 2 (Z.log2 n) ltac:(lia) (Z.log2_nonneg n)). lia.
Qed.

Lemma round_magnitude_zero : round_magnitude 0 = 0.
Proof. reflexivity. Qed.


Lemma Number_of_BigInt_monotone (a b : Z) :
  a <= b -> num_le (Number_of_BigInt a) (Number_of_BigInt b) = true.
Proof.
  intros Hab. unfold num_le, Number_of_BigInt.
  assert (forall z, z <> 0 -> 0 < round_magnitude (Z.abs z)) as Hpos.
  { intros z Hz. apply round_magnitude_pos. lia. }
  destruct (Z.eq_dec a 0) as [-> | Hna], (Z.eq_dec b 0) as [-> | Hnb];
    try (pose proof (Hpos a Hna)); try (pose proof (Hpos b Hnb));
    change (round_magnitude (Z.abs 0)) with 0;
    change (2 ^ 1024 <=? 0) with false; change (Z.sgn 0 * 0) with 0;
    change (0 <? 0) with false; cbv iota.
  - reflexivity.
  - destruct (Z.ltb_spec b 0); [lia|]. rewrite Z.sgn_pos by lia.
    destruct (_ <=? _); cbn [num_ge]; [reflexivity|]. lia.
  - destruct (Z.ltb_spec a 0); [|lia]. rewrite Z.sgn_neg by lia.
    destruct (_ <=? _); cbn [num_ge]; [reflexivity|]. lia.
  - destruct (Z.ltb_spec a 0) as [Ha | Ha], (Z.ltb_spec b 0) as [Hb | Hb];
      try lia.
    + pose proof (round_magnitude_monotone (Z.abs b) (Z.abs a) ltac:(lia)).
      rewrite !Z.sgn_neg by lia.
      destruct (Z.leb_spec (2 ^ 1024) (round_magnitude (Z.abs a))),
        (Z.leb_spec (2 ^ 1024) (round_magnitude (Z.abs b)));
        cbn [num_ge]; first [reflexivity | lia | exfalso; lia].
    + rewrite (Z.sgn_neg a), (Z.sgn_pos b) by lia.
      destruct (Z.leb_spec (2 ^ 1024) (round_magnitude (Z.abs a))),
        (Z.leb_spec (2 ^ 1024) (round_magnitude (Z.abs b)));
        cbn [num_ge]; first [reflexivity | lia | exfalso; lia].
    + pose proof (round_magnitude_monotone (Z.abs a) (Z.abs b) ltac:(lia)).
      rewrite !Z.sgn_pos by lia.
      destruct (Z.leb_spec (2 ^ 1024) (round_magnitude (Z.abs a))),
        (Z.leb_spec (2 ^ 1024) (round_magnitude (Z.abs b)));
        cbn [num_ge]; first [reflexivity | lia | exfalso; lia].
Qed.

Lemma Number_of_BigInt_sign (z : Z) :
  num_ge (Number_of_BigInt z) (Int 0) = (0 <=? z).
Proof.
  unfold Number_of_BigInt.
  destruct (Z.eq_dec z 0) as [-> | Hz]; [reflexivity|].
  pose proof (round_magnitude_pos (Z.abs z) ltac:(lia)) as Hpos.
  destruct (Z.ltb_spec z 0) as [Hneg | Hnonneg].
  - rewrite Z.sgn_neg by lia.
    destruct (_ <=? _); cbn [num_ge]; lia.
  - rewrite Z.sgn_pos by lia.
    destruct (_ <=? _); cbn [num_ge]; lia.
Qed.


Example Number_of_BigInt_rounds_up :
  Number_of_BigInt 9007199254740995 = Int 9007199254740996.
Proof. reflexivity. Qed.

Example Number_of_BigInt_ties_to_even :
  Number_of_BigInt 9007199254740993 = Int 9007199254740992.
Proof. reflexivity. Qed.

Example Number_of_BigInt_largest_finite :
  Number_of_BigInt (2 ^ 1024 - 2 ^ 970 - 1) = Int ((2 ^ 53 - 1) * 2 ^ 971).
Proof. reflexivity. Qed.

Example Number_of_BigInt_overflows :
  Number_of_BigInt (2 ^ 1024 - 2 ^ 970) = Infinity false.
Proof. reflexivity. Qed.


Lemma Number_of_BigInt_not_NaN (z : Z) : Number_of_BigInt z <> NaN.
Proof. unfold Number_of_BigInt. destruct (_ <=? _); discriminate. Qed.

Lemma num_ge_trans (a b c : JsNum) :
  num_ge a b = true -> num_ge b c = true -> num_ge a c = true.
Proof.
  destruct a as [|x|[|]], b as [|y|[|]], c as [|z|[|]]; cbn [num_ge];
    try discriminate; try reflexivity.
  intros H1 H2. apply Z.leb_le in H1, H2. apply Z.leb_le. lia.
Qed.

Lemma js_ge_NaN_left (toNum : string -> JsNum) (required : JsVal) :
  js_ge toNum NaN required = false.
Proof. now destruct required. Qed.

Lemma js_ge_monotone (toNum : string -> JsNum) (a1 a2 : JsNum)
  (required : JsVal) :
  num_le a1 a2 = true ->
  js_ge toNum a1 required = true ->
  js_ge toNum a2 required = true.
Proof.
  unfold num_le, js_ge. intros Hle.
  destruct required; apply num_ge_trans; exact Hle.
Qed.

(** [Number] is monotone on the integers a balance can be: on BigInts,
    on Numbers, and across the two. *)
Lemma ToNumber_monotone (toNum : string -> JsNum) (v1 v2 : JsVal) (b1 b2 : Z) :
  is_integer v1 b1 ->
  is_integer v2 b2 ->
  (v1 = JNum (Int b1) -> is_double b1) ->
  (v2 = JNum (Int b2) -> is_double b2) ->
  b1 <= b2 ->
  num_le (ToNumber toNum v1) (ToNumber toNum v2) = true.
Proof.
  intros [-> | ->] [-> | ->] Hd1 Hd2 Hle; cbn [ToNumber].
  - unfold num_le. cbn [num_ge]. now apply Z.leb_le.
  - rewrite <- (Hd1 eq_refl). now apply Number_of_BigInt_monotone.
  - rewrite <- (Hd2 eq_refl). now apply Number_of_BigInt_monotone.
  - now apply Number_of_BigInt_monotone.
Qed.

(** ** The broker: [PaymentsManager] *)

Import NEVERMINED_CONFIG.

Lemma extractRequiredBalance_path (ddo : JsVal) :
  PaymentsManager.extractRequiredBalance ddo =
  js_or (read_path minCreditsRequired_path ddo) (JNum (Int 0)).
Proof. reflexivity. Qed.

(** The comparison made once both answers are in. *)
Lemma checkBalance_compares (w : World) (plan agent : string) (bal ddo : JsVal) :
  payments_getPlanBalance w plan = Returned bal ->
  payments_getAssetDDO w agent = Returned ddo ->
  nullish bal = false ->
  result_of (PaymentsManager.checkBalance plan agent) w =
  Returned (js_ge (StringToNumber w)
              (ToNumber (StringToNumber w) (member bal "balance"))
              (js_or (read_path minCreditsRequired_path ddo) (JNum (Int 0)))).
Proof.
  intros Hbal Hddo Hnull.
  unfold PaymentsManager.checkBalance. run. rewrite Hbal. run.
  rewrite Hddo. run. unfold get. rewrite Hnull. run.
  now rewrite extractRequiredBalance_path.
Qed.

Lemma checkBalance_returns (w : World) (plan agent : string) :
  exists b, result_of (PaymentsManager.checkBalance plan agent) w = Returned b.
Proof.
  unfold PaymentsManager.checkBalance. run.
  destruct (payments_getPlanBalance w plan) as [bal|e]; run; [|now eexists].
  destruct (payments_getAssetDDO w agent) as [ddo|e]; run; [|now eexists].
  destruct (get bal "balance") as [x|e]; run; now eexists.
Qed.

(** The balance check only talks to the payment service. *)
Lemma checkBalance_trace (w : World) (plan agent : string) :
  backend_untouched (trace_of (PaymentsManager.checkBalance plan agent) w) = true.
Proof.
  unfold PaymentsManager.checkBalance. run.
  destruct (payments_getPlanBalance w plan) as [bal|e]; run; [|reflexivity].
  destruct (payments_getAssetDDO w agent) as [ddo|e]; run; [|reflexivity].
  destruct (get bal "balance") as [x|e]; run; reflexivity.
Qed.



Lemma orderPlan_returns (w : World) (plan : string) :
  exists r, result_of (PaymentsManager.orderPlan plan) w = Returned r.
Proof.
  unfold PaymentsManager.orderPlan. run.
  destruct (payments_orderPlan w plan) as [v|e]; run; [|now eexists].
  destruct (negb (truthy v) || negb (truthy (member v "success")));
    run; now eexists.
Qed.


(** What [getServiceAccess] does with each answer of the payment
    service. *)
Lemma getServiceAccess_result (w : World) (agent : string) :
  result_of (PaymentsManager.getServiceAccess agent) w =
  match payments_getServiceAccessConfig w agent with
  | Threw e => Threw e
  | Returned cfg =>
      if negb (truthy cfg) || negb (truthy (member cfg "accessToken"))
      then Threw (ErrorObj "Failed to get service access configuration")
      else
        match PaymentsManager.call_replace (member cfg "neverminedProxyUri") with
        | Returned proxy =>
            Returned {| PaymentsManager.neverminedProxyUri := proxy;
                        PaymentsManager.accessToken := member cfg "accessToken" |}
        | Threw e => Threw e
        end
  end.
Proof.
  unfold PaymentsManager.getServiceAccess. run.
  destruct (payments_getServiceAccessConfig w agent) as [cfg|e]; run;
    [|reflexivity].
  destruct (negb (truthy cfg) || negb (truthy (member cfg "accessToken")));
    run; [reflexivity|].
  destruct (PaymentsManager.call_replace _); run; reflexivity.
Qed.

Lemma getVideoService_result (w : World) (agent : string) :
  result_of (PaymentsManager.getVideoService agent) w =
  match result_of (PaymentsManager.getServiceAccess agent) w with
  | Returned grant =>
      Returned (VideoService.new
                  (JStr (PaymentsManager.neverminedProxyUri grant))
                  (PaymentsManager.accessToken grant))
  | Threw e => Threw e
  end.
Proof.
  unfold PaymentsManager.getVideoService. run.
  destruct (result_of (PaymentsManager.getServiceAccess agent) w);
    run; reflexivity.
Qed.

(** C4, as the code has it.  [getServiceAccess] throws whenever the
    access configuration is missing or has no [accessToken], rethrows a
    failure of the payment service, and never returns a grant without a
    token.  [checkBalance] and [orderPlan] never throw; besides
    [getServiceAccess], the one operation that propagates a failure is
    [getVideoService], which passes on that of [getServiceAccess]. *)
Theorem getServiceAccess_fail_hard (w : World) (agent : string) :
  (forall cfg, payments_getServiceAccessConfig w agent = Returned cfg ->
      truthy cfg = false \/ truthy (member cfg "accessToken") = false ->
      result_of (PaymentsManager.getServiceAccess agent) w =
      Threw (ErrorObj "Failed to get service access configuration"))
  /\ (forall e, payments_getServiceAccessConfig w agent = Threw e ->
        result_of (PaymentsManager.getServiceAccess agent) w = Threw e)
  /\ (forall grant,
        result_of (PaymentsManager.getServiceAccess agent) w = Returned grant ->
        truthy (PaymentsManager.accessToken grant) = true)
  /\ (forall e,
        result_of (PaymentsManager.getServiceAccess agent) w = Threw e ->
        result_of (PaymentsManager.getVideoService agent) w = Threw e)
  /\ (forall op, op_throws op w ->
        exists a, op = OpGetServiceAccess a \/ op = OpGetVideoService a).
Proof.
  split; [|split; [|split; [|split]]].
  - intros cfg Hcfg Hmissing. rewrite getServiceAccess_result, Hcfg.
    destruct Hmissing as [-> | ->]; [reflexivity|].
    now rewrite orb_true_r.
  - intros e He. now rewrite getServiceAccess_result, He.
  - intros grant. rewrite getServiceAccess_result.
    destruct (payments_getServiceAccessConfig w agent) as [cfg|e];
      [|discriminate].
    destruct (truthy cfg), (truthy (member cfg "accessToken")) eqn:Htoken;
      cbn [negb orb]; try discriminate.
    destruct (PaymentsManager.call_replace _); [|discriminate].
    now intros [= <-].
  - intros e He. now rewrite getVideoService_result, He.
  - intros [plan agent' | plan | agent' | agent'] [e He]; cbn in He.
    + destruct (checkBalance_returns w plan agent') as [b Hb]. congruence.
    + destruct (orderPlan_returns w plan) as [r Hr]. congruence.
    + exists agent'. now left.
    + exists agent'. now right.
Qed.

(** ** The artifact download *)

Lemma Server_download_result (w : World) (url : JsVal) :
  result_of (Server.downloadAsBase64 url) w =
  match axios_get w url with
  | Threw e => Threw e
  | Returned response =>
      if 1048576 <? byteLength (data response)
      then Returned None
      else Returned (Some (Base64.encode (data response)))
  end.
Proof.
  unfold Server.downloadAsBase64. run.
  destruct (axios_get w url) as [response|e]; run; [|reflexivity].
  change (1024 * 1024) with 1048576.
  destruct (1048576 <? byteLength (data response)); run; reflexivity.
Qed.

Lemma LibServer_download_result (w : World) (url : JsVal) :
  result_of (LibServer.downloadAsBase64 url) w =
  match axios_get w url with
  | Threw e => Returned None
  | Returned response =>
      if num_gt (parseInt (ToString (js_or (header response "content-length")
                                           (JStr "0"))))
           (Int 1048576)
      then Returned None
      else Returned (Some (Base64.encode (data response)))
  end.
Proof.
  unfold LibServer.downloadAsBase64. run.
  destruct (axios_get w url) as [response|e]; run; [|reflexivity].
  change (1024 * 1024) with 1048576.
  destruct (num_gt _ _); run; reflexivity.
Qed.

Lemma byteLength_repeat (b : Byte.byte) (n : N) :
  byteLength (repeat b (N.to_nat n)) = Z.of_N n.
Proof.
  unfold byteLength. now rewrite repeat_length, N_nat_Z.
Qed.

(** C1, as the code has it.  The threshold is inclusive of inline
    encoding: an artifact of 1,048,576 octets or fewer is returned as its
    base64 encoding, an artifact of more than 1,048,576 octets as [null]. *)
Theorem download_threshold (w : World) (url : JsVal) (response : AxiosResponse) :
  axios_get w url = Returned response ->
  (byteLength (data response) <= 1048576 ->
   result_of (Server.downloadAsBase64 url) w =
   Returned (Some (Base64.encode (data response))))
  /\ (1048576 < byteLength (data response) ->
      result_of (Server.downloadAsBase64 url) w = Returned None).
Proof.
  intros Hget. rewrite Server_download_result, Hget.
  split; intros Hlen.
  - destruct (Z.ltb_spec 1048576 (byteLength (data response))); [lia|reflexivity].
  - destruct (Z.ltb_spec 1048576 (byteLength (data response))); [reflexivity|lia].
Qed.

(** C9.  Round trip.  An artifact small enough to be inlined comes back
    from [downloadAsBase64] as the base64 encoding of exactly the octets
    that were fetched, and decoding that string gives the octets back: in
    the [PaymentsManager]-based server for a body of at most 1,048,576
    octets, in the library-based server for a declared length of at most
    1,048,576.  Nothing else is ever returned inline. *)
Theorem inline_content_round_trip (w : World) (url : JsVal)
  (response : AxiosResponse) :
  axios_get w url = Returned response ->
  (byteLength (data response) <= 1048576 ->
   exists inline,
     result_of (Server.downloadAsBase64 url) w = Returned (Some inline)
     /\ inline = Base64.encode (data response)
     /\ Base64.decode inline = Some (data response))
  /\ (num_gt (declared_length response) (Int 1048576) = false ->
      exists inline,
        result_of (LibServer.downloadAsBase64 url) w = Returned (Some inline)
        /\ inline = Base64.encode (data response)
        /\ Base64.decode inline = Some (data response))
  /\ (forall inline,
        result_of (Server.downloadAsBase64 url) w = Returned (Some inline)
        \/ result_of (LibServer.downloadAsBase64 url) w = Returned (Some inline) ->
        inline = Base64.encode (data response)
        /\ Base64.decode inline = Some (data response)).
Proof.
  intros Hget.
  rewrite Server_download_result, LibServer_download_result, Hget.
  fold (declared_length response).
  split; [|split].
  - intros Hlen.
    destruct (Z.ltb_spec 1048576 (byteLength (data response))); [lia|].
    eexists. split; [reflexivity|]. split; [reflexivity|].
    apply Base64Facts.decode_encode.
  - intros ->.
    eexists. split; [reflexivity|]. split; [reflexivity|].
    apply Base64Facts.decode_encode.
  - intros inline [H | H].
    + destruct (1048576 <? byteLength (data response)); [discriminate|].
      injection H as <-. split; [reflexivity|].
      apply Base64Facts.decode_encode.
    + destruct (num_gt _ _); [discriminate|].
      injection H as <-. split; [reflexivity|].
      apply Base64Facts.decode_encode.
Qed.

(** C10.  In the library-based server the decision is taken on the
    [content-length] header: with the header absent (or empty) the length
    reads as 0 and the artifact is inlined whatever its size; with a
    header that reads as more than 1,048,576 the result is [null]
    whatever the size of the body. *)
Theorem LibServer_download_trusts_header (w : World) (url : JsVal)
  (response : AxiosResponse) :
  axios_get w url = Returned response ->
  (truthy (header response "content-length") = false ->
   parseInt (ToString (js_or (header response "content-length") (JStr "0")))
   = Int 0
   /\ result_of (LibServer.downloadAsBase64 url) w =
      Returned (Some (Base64.encode (data response))))
  /\ (forall v n,
        assoc "content-length" (headers response) = Some v ->
        v <> EmptyString ->
        parseInt v = Int n ->
        1048576 < n ->
        result_of (LibServer.downloadAsBase64 url) w = Returned None).
Proof.
  intros Hget. rewrite LibServer_download_result, Hget. split.
  - intros Habsent. unfold js_or. rewrite Habsent. split; reflexivity.
  - intros v n Hv Hne Hn Hbig. unfold js_or, header. rewrite Hv.
    cbn [truthy ToString].
    destruct (String.eqb_spec v ""); [contradiction|]. cbn [negb ToString].
    rewrite Hn. cbn [num_gt].
    destruct (Z.ltb_spec 1048576 n); [reflexivity|lia].
Qed.

(** ** The generation client *)

(** C6, as the code has it.  The three operations never throw.  A
    response with [success = false] carries a diagnostic [message]; a
    response with [success = true] carries, in [imageUrl] (image
    operations) or [url] (video), the field of that name of the backend's
    JSON answer, which is [undefined] when the backend left it out. *)
Theorem generation_response_invariant (service : VideoService.t)
  (request : GenerationRequest) (w : World) :
  exists response,
    result_of (generate service request) w = Returned response
    /\ (VideoService.success response = false ->
        exists text, VideoService.message response = JStr text)
    /\ (VideoService.success response = true ->
        exists answer,
          backend_answered service request w answer
          /\ nullish answer = false
          /\ primaryUri request response = member answer (primary_field request)).
Proof.
  destruct request as [prompt | input prompt | prompt images duration];
    cbn [generate primaryUri primary_field];
    unfold VideoService.generateText2Image, VideoService.generateImage2Image,
      VideoService.generateText2Video, VideoService.post, VideoService.failure;
    run.
  all: destruct (fetch_post w _ _ _) as [response|e] eqn:Hfetch; run;
    [|eexists; split; [reflexivity|]; split; cbn; [eauto|discriminate]].
  all: destruct (ok response) eqn:Hok; cbn [negb]; run;
    [|eexists; split; [reflexivity|]; split; cbn; [eauto|discriminate]].
  all: destruct (json response) as [answer|e] eqn:Hjson; run;
    [|eexists; split; [reflexivity|]; split; cbn; [eauto|discriminate]].
  all: unfold get; destruct (nullish answer) eqn:Hnull; run;
    [eexists; split; [reflexivity|]; split; cbn; [eauto|discriminate]|].
  all: eexists; split; [reflexivity|]; split; cbn; [discriminate|].
  all: intros _; exists answer; split; [|split; [exact Hnull|reflexivity]].
  all: exists response; exact (conj Hfetch (conj Hok Hjson)).
Qed.

(** ** The tool handlers *)

(** C2.  When the balance check resolves to false, each of the three
    generation tools of either server returns the purchase prompt, whose
    metadata has [needsPurchase = true] and the configured plan
    identifier, and no call reaches the generation backend. *)
Theorem insufficient_balance_short_circuits (w : World)
  (request : GenerationRequest) :
  (result_of (PaymentsManager.checkBalance PLAN_DID AGENT_DID) w
   = Returned false ->
   result_of (Server.callTool request) w = Returned (purchasePrompt PLAN_DID)
   /\ backend_untouched (trace_of (Server.callTool request) w) = true)
  /\ (forall hasBalance,
        lib_checkBalance w PLAN_DID AGENT_DID = Returned hasBalance ->
        truthy hasBalance = false ->
        result_of (LibServer.callTool request) w
        = Returned (purchasePrompt PLAN_DID)
        /\ backend_untouched (trace_of (LibServer.callTool request) w) = true)
  /\ metadata (purchasePrompt PLAN_DID)
     = Some {| needsPurchase := true; planDid := PLAN_DID |}.
Proof.
  split; [|split; [|reflexivity]].
  - intros Hfalse.
    pose proof (checkBalance_trace w PLAN_DID AGENT_DID) as Htrace.
    destruct request; cbn [Server.callTool];
      unfold Server.text2image, Server.image2image, Server.text2video;
      run; rewrite Hfalse; run; auto.
  - intros hasBalance Hlib Hfalsy.
    destruct request; cbn [LibServer.callTool];
      unfold LibServer.text2image, LibServer.image2image, LibServer.text2video,
        LibServer.planDid, LibServer.agentDid;
      run; rewrite Hlib; run; rewrite Hfalsy; run; auto.
Qed.

(** C5, as the code has it.  In the server built on [PaymentsManager], a
    download that fails makes [downloadAsBase64] rethrow, so that
    [text2image] and [text2video] reject with that error and
    [image2image] returns an error result.  In the library-based server
    [downloadAsBase64] catches the failure and returns [null]. *)
Theorem download_failure_propagates (w : World) (e : JsExn) :
  (forall url, axios_get w url = Threw e ->
     result_of (Server.downloadAsBase64 url) w = Threw e
     /\ result_of (LibServer.downloadAsBase64 url) w = Returned None)
  /\ (forall request service response,
        result_of (PaymentsManager.checkBalance PLAN_DID AGENT_DID) w
        = Returned true ->
        result_of (PaymentsManager.getVideoService AGENT_DID) w
        = Returned service ->
        result_of (generate service request) w = Returned response ->
        VideoService.success response = true ->
        truthy (primaryUri request response) = true ->
        axios_get w (primaryUri request response) = Threw e ->
        match request with
        | Image2Image _ _ =>
            result_of (Server.callTool request) w
            = Returned (errorResult "Error transforming image")
        | _ => result_of (Server.callTool request) w = Threw e
        end).
Proof.
  split.
  - intros url Hget.
    now rewrite Server_download_result, LibServer_download_result, Hget.
  - intros request service response Hbalance Hservice Hgen Hok Huri Hget.
    destruct request; cbn [Server.callTool generate primaryUri] in *;
      unfold Server.text2image, Server.image2image, Server.text2video;
      run; rewrite Hbalance; cbn [negb]; run; rewrite Hservice; run;
      rewrite Hgen; run; rewrite Hok, Huri; cbn [negb orb]; run;
      rewrite Server_download_result, Hget; reflexivity.
Qed.

(** Split on the innermost pending completion or test. *)
Ltac innermost x :=
  lazymatch x with
  | context [match _ with Returned _ => _ | Threw _ => _ end] => fail
  | context [if _ then _ else _] => fail
  | _ => idtac
  end.

Ltac crunch_step :=
  match goal with
  | |- context [match ?x with Returned _ => _ | Threw _ => _ end] =>
      innermost x; destruct x eqn:?
  | |- context [if ?b then _ else _] =>
      innermost b; destruct b eqn:?
  | |- context [match ?o with Some _ => _ | None => _ end] =>
      innermost o; destruct o eqn:?
  end.

Ltac crunch := repeat (run; crunch_step); run.

Ltac mime_leaf :=
  first [ discriminate
        | let Hin := fresh "Hin" in
          let Hm := fresh "Hm" in
          intros [= <-] Hin ? Hm; cbn in Hin;
          intuition (subst; cbn in Hm; congruence) ].

(** The MIME type of the content of a tool result is fixed by the tool,
    whatever the backend answered. *)
Lemma Server_mime_fixed (w : World) (request : GenerationRequest)
  (r : ToolResult) (c : Content) :
  result_of (Server.callTool request) w = Returned r ->
  In c (content r) ->
  forall mime, content_mimeType c = Some mime -> mime = Server_mime request.
Proof.
  revert r c.
  destruct request; cbn [Server.callTool Server_mime];
    unfold Server.text2image, Server.image2image, Server.text2video,
      Server.media_content, if_string;
    intros r c; crunch; mime_leaf.
Qed.

Lemma LibServer_mime_fixed (w : World) (request : GenerationRequest)
  (r : ToolResult) (c : Content) :
  result_of (LibServer.callTool request) w = Returned r ->
  In c (content r) ->
  forall mime, content_mimeType c = Some mime -> mime = LibServer_mime request.
Proof.
  revert r c.
  destruct request; cbn [LibServer.callTool LibServer_mime];
    unfold LibServer.text2image, LibServer.image2image, LibServer.text2video,
      LibServer.image_content, if_string;
    intros r c; crunch; mime_leaf.
Qed.

(* ================================================================== *)
(** ** The properties on the sample worlds *)

Import Fixtures.

Lemma byteLength_mebibyte :
  byteLength Fixtures.mebibyte_artifact = 1048576.
Proof. unfold Fixtures.mebibyte_artifact. now rewrite byteLength_repeat. Qed.

Lemma byteLength_oversized :
  byteLength Fixtures.oversized_artifact = 1048577.
Proof. unfold Fixtures.oversized_artifact. now rewrite byteLength_repeat. Qed.

(** Against C1 as stated: an artifact of exactly 1,048,576 octets is
    returned inline, not as [null]. *)
Lemma mebibyte_artifact_is_inlined :
  byteLength Fixtures.mebibyte_artifact = 1048576
  /\ result_of (Server.downloadAsBase64 sample_uri) Fixtures.mebibyte
     = Returned (Some (Base64.encode Fixtures.mebibyte_artifact))
  /\ result_of (Server.downloadAsBase64 sample_uri) Fixtures.mebibyte
     <> Returned None.
Proof.
  split; [exact byteLength_mebibyte|].
  assert (result_of (Server.downloadAsBase64 sample_uri) Fixtures.mebibyte
          = Returned (Some (Base64.encode Fixtures.mebibyte_artifact))) as H.
  { rewrite Server_download_result.
    change (axios_get Fixtures.mebibyte sample_uri)
      with (Returned {| headers := [("content-length", "1048576")];
                        data := Fixtures.mebibyte_artifact |}).
    cbn [data]. now rewrite byteLength_mebibyte. }
  split; [exact H|]. rewrite H. discriminate.
Qed.

Lemma download_threshold_witness :
  result_of (Server.downloadAsBase64 sample_uri) Fixtures.funded
  = Returned (Some (Base64.encode Fixtures.small_artifact))
  /\ result_of (Server.downloadAsBase64 sample_uri) Fixtures.oversized
     = Returned None.
Proof.
  split.
  - refine (proj1 (download_threshold Fixtures.funded sample_uri
                     {| headers := [("content-length", "3")];
                        data := Fixtures.small_artifact |} eq_refl) _).
    cbn. lia.
  - refine (proj2 (download_threshold Fixtures.oversized sample_uri
                     {| headers := [("content-length", "1048577")];
                        data := Fixtures.oversized_artifact |} eq_refl) _).
    cbn [data]. rewrite byteLength_oversized. reflexivity.
Defined.

Lemma insufficient_balance_short_circuits_witness :
  (result_of (Server.callTool (Text2Image "a cat")) Fixtures.underfunded
   = Returned (purchasePrompt PLAN_DID)
   /\ backend_untouched
        (trace_of (Server.callTool (Text2Image "a cat")) Fixtures.underfunded)
      = true)
  /\ (result_of (LibServer.callTool (Text2Image "a cat")) Fixtures.underfunded
      = Returned (purchasePrompt PLAN_DID)
      /\ backend_untouched
           (trace_of (LibServer.callTool (Text2Image "a cat"))
              Fixtures.underfunded)
         = true).
Proof.
  split.
  - exact (proj1 (insufficient_balance_short_circuits Fixtures.underfunded
                    (Text2Image "a cat")) eq_refl).
  - exact (proj1 (proj2 (insufficient_balance_short_circuits
                           Fixtures.underfunded (Text2Image "a cat")))
             (JBool false) eq_refl eq_refl).
Defined.


(** Against C4 as stated: [getVideoService] propagates a failure too. *)
Lemma getVideoService_also_throws :
  op_throws (OpGetVideoService AGENT_DID) Fixtures.tokenless
  /\ (forall agent, OpGetVideoService AGENT_DID <> OpGetServiceAccess agent)
  /\ result_of (PaymentsManager.getVideoService AGENT_DID) Fixtures.tokenless
     = Threw (ErrorObj "Failed to get service access configuration").
Proof.
  split; [|split].
  - eexists. reflexivity.
  - discriminate.
  - reflexivity.
Qed.

Lemma getServiceAccess_fail_hard_witness :
  result_of (PaymentsManager.getServiceAccess AGENT_DID) Fixtures.tokenless
  = Threw (ErrorObj "Failed to get service access configuration")
  /\ result_of (PaymentsManager.getVideoService AGENT_DID) Fixtures.tokenless
     = Threw (ErrorObj "Failed to get service access configuration")
  /\ result_of (PaymentsManager.getServiceAccess AGENT_DID) Fixtures.offline
     = Threw (ErrorObj "network error").
Proof.
  split; [|split].
  - exact (proj1 (getServiceAccess_fail_hard Fixtures.tokenless AGENT_DID)
             (JObj [("neverminedProxyUri",
                     JStr "https://proxy.testing.nevermined.app")])
             eq_refl (or_intror eq_refl)).
  - exact (proj1 (proj2 (proj2 (proj2
             (getServiceAccess_fail_hard Fixtures.tokenless AGENT_DID))))
             (ErrorObj "Failed to get service access configuration") eq_refl).
  - exact (proj1 (proj2 (getServiceAccess_fail_hard Fixtures.offline AGENT_DID))
             (ErrorObj "network error") eq_refl).
Defined.

(** Against C5 as stated: in the library-based server a failed download
    comes back as [null], and the tool answers with the reference it
    gives for an artifact that is too large. *)
Lemma LibServer_swallows_download_failure :
  axios_get Fixtures.broken_link sample_uri
  = Threw (ErrorObj "Request failed with status code 404")
  /\ result_of (LibServer.downloadAsBase64 sample_uri) Fixtures.broken_link
     = Returned None
  /\ result_of (LibServer.callTool (Text2Image "a cat")) Fixtures.broken_link
     = Returned (okResult
                   (ResourceContent {| uri := sample_uri;
                                       body := Text "Generated image";
                                       mimeType := "image/png" |}))
  /\ result_of (LibServer.callTool (Text2Image "a cat")) Fixtures.oversized
     = result_of (LibServer.callTool (Text2Image "a cat")) Fixtures.broken_link.
Proof. repeat split; reflexivity. Qed.

Lemma download_failure_propagates_witness :
  result_of (Server.downloadAsBase64 sample_uri) Fixtures.broken_link
  = Threw (ErrorObj "Request failed with status code 404")
  /\ result_of (Server.callTool (Text2Image "a cat")) Fixtures.broken_link
     = Threw (ErrorObj "Request failed with status code 404")
  /\ result_of (Server.callTool (Image2Image "https://cdn.example.org/in/cat" "a dog"))
       Fixtures.broken_link
     = Returned (errorResult "Error transforming image").
Proof.
  pose (response := {| VideoService.success := true;
                       VideoService.message := JUndefined;
                       VideoService.imageUrl := sample_uri;
                       VideoService.url := JUndefined |}).
  split; [|split].
  - exact (proj1 (proj1 (download_failure_propagates Fixtures.broken_link
                           (ErrorObj "Request failed with status code 404"))
                    sample_uri eq_refl)).
  - exact (proj2 (download_failure_propagates Fixtures.broken_link
                    (ErrorObj "Request failed with status code 404"))
             (Text2Image "a cat") sample_service response
             eq_refl eq_refl eq_refl eq_refl eq_refl eq_refl).
  - exact (proj2 (download_failure_propagates Fixtures.broken_link
                    (ErrorObj "Request failed with status code 404"))
             (Image2Image "https://cdn.example.org/in/cat" "a dog")
             sample_service response
             eq_refl eq_refl eq_refl eq_refl eq_refl eq_refl).
Defined.

(** Against C6 as stated: a 2xx answer without [imageUrl] gives
    [success = true] and no primary URI. *)
Lemma success_without_uri :
  result_of (VideoService.generateText2Image sample_service "a cat")
    Fixtures.empty_answer
  = Returned {| VideoService.success := true;
                VideoService.message := JUndefined;
                VideoService.imageUrl := JUndefined;
                VideoService.url := JUndefined |}.
Proof. reflexivity. Qed.

Lemma generation_response_invariant_witness :
  exists response,
    result_of (generate sample_service (Text2Image "a cat")) Fixtures.funded
    = Returned response
    /\ (VideoService.success response = false ->
        exists text, VideoService.message response = JStr text)
    /\ (VideoService.success response = true ->
        exists answer,
          backend_answered sample_service (Text2Image "a cat") Fixtures.funded
            answer
          /\ nullish answer = false
          /\ primaryUri (Text2Image "a cat") response
             = member answer (primary_field (Text2Image "a cat"))).
Proof.
  exact (generation_response_invariant sample_service (Text2Image "a cat")
           Fixtures.funded).
Defined.


(** C8 on the library-based server: a generated image comes back
    labelled [image/png], inline or by reference, where the server built
    on [PaymentsManager] says [image/jpeg]. *)
Theorem LibServer_labels_images_png :
  result_of (LibServer.callTool (Text2Image "a cat")) Fixtures.funded
  = Returned (okResult (ImageContent "TWFu" "image/png"))
  /\ result_of (LibServer.callTool (Image2Image "https://cdn.example.org/in/cat" "a dog"))
       Fixtures.oversized
     = Returned (okResult
                   (ResourceContent {| uri := sample_uri;
                                       body := Text "Transformed image";
                                       mimeType := "image/png" |}))
  /\ result_of (Server.callTool (Text2Image "a cat")) Fixtures.funded
     = Returned (okResult
                   (ResourceContent {| uri := sample_uri;
                                       body := Blob "TWFu";
                                       mimeType := "image/jpeg" |})).
Proof. repeat split; reflexivity. Qed.

Lemma inline_content_round_trip_witness :
  exists inline,
    result_of (Server.downloadAsBase64 sample_uri) Fixtures.funded
    = Returned (Some inline)
    /\ inline = Base64.encode small_artifact
    /\ Base64.decode inline = Some small_artifact.
Proof.
  refine (proj1 (inline_content_round_trip Fixtures.funded sample_uri
                   {| headers := [("content-length", "3")];
                      data := small_artifact |} eq_refl) _).
  cbn. lia.
Defined.

Lemma LibServer_download_trusts_header_witness :
  1048576 < byteLength Fixtures.oversized_artifact
  /\ result_of (LibServer.downloadAsBase64 sample_uri)
       Fixtures.oversized_unlabelled
     = Returned (Some (Base64.encode Fixtures.oversized_artifact))
  /\ result_of (LibServer.downloadAsBase64 sample_uri) Fixtures.oversized
     = Returned None.
Proof.
  split; [rewrite byteLength_oversized; reflexivity|].
  split.
  - exact (proj2 (proj1 (LibServer_download_trusts_header
                           Fixtures.oversized_unlabelled sample_uri
                           {| headers := [("content-type", "image/jpeg")];
                              data := Fixtures.oversized_artifact |} eq_refl)
                    eq_refl)).
  - refine (proj2 (LibServer_download_trusts_header Fixtures.oversized sample_uri
                     {| headers := [("content-length", "1048577")];
                        data := Fixtures.oversized_artifact |} eq_refl)
              "1048577" 1048577 eq_refl _ eq_refl eq_refl).
    discriminate.
Defined.


(** ** The scenarios of the design notes, run on the model *)

Example backend_500_is_a_tool_error :
  result_of (Server.callTool (Text2Image "a cat")) backend_down
  = Returned (errorResult "Error generating image: HTTP error! status: 500").
Proof. reflexivity. Qed.

Example small_image_is_inlined :
  result_of (Server.callTool (Image2Image "https://cdn.example.org/in/cat" "a dog"))
    funded
  = Returned (okResult
                (ResourceContent {| uri := sample_uri;
                                    body := Blob "TWFu";
                                    mimeType := "image/jpeg" |}))
  /\ Base64.decode "TWFu" = Some small_artifact.
Proof. split; reflexivity. Qed.

Example missing_grant_rejects_the_call :
  result_of (Server.callTool (Text2Image "a cat")) tokenless
  = Threw (ErrorObj "Failed to get service access configuration")
  /\ backend_untouched (trace_of (Server.callTool (Text2Image "a cat")) tokenless)
     = true.
Proof. split; reflexivity. Qed.

Example funded_call_trace :
  trace_of (Server.callTool (Text2Image "a cat")) funded
  = [EvGetPlanBalance PLAN_DID;
     EvGetAssetDDO AGENT_DID;
     EvGetServiceAccessConfig AGENT_DID;
     EvFetchPost "http://proxy.testing.nevermined.app/api/generate/text2image"
       "Bearer eyJhbGciOiJFUzI1NksifQ" (JObj [("prompt", JStr "a cat")]);
     EvAxiosGet sample_uri].
Proof. reflexivity. Qed.

Example purchase_plan_confirms :
  result_of (Server.purchase_plan PLAN_DID) funded
  = Returned (okResult
                (TextContent "Plan ordered successfully. Agreement ID: 0x7a1c"))
  /\ result_of (Server.purchase_plan PLAN_DID) refused
     = Returned (errorResult "Error purchasing plan: Failed to create order").
Proof. split; reflexivity. Qed.

Example large_video_is_referenced :
  result_of (Server.callTool (Text2Video "a cat" JUndefined JUndefined))
    large_video
  = Returned (okResult
                (ResourceContent
                   {| uri := sample_uri;
                      body := Text "Video too large to display directly";
                      mimeType := "video/mp4" |})).
Proof.
  cbn [Server.callTool]. unfold Server.text2video. run.
  change (result_of (PaymentsManager.checkBalance PLAN_DID AGENT_DID) large_video)
    with (@Returned bool true).
  cbn [negb]. run.
  change (result_of (PaymentsManager.getVideoService AGENT_DID) large_video)
    with (Returned sample_service).
  run.
  change (result_of
            (VideoService.generateText2Video sample_service "a cat"
               JUndefined JUndefined) large_video)
    with (Returned {| VideoService.success := true;
                      VideoService.message := JUndefined;
                      VideoService.imageUrl := JUndefined;
                      VideoService.url := sample_uri |}).
  run. cbn [VideoService.success VideoService.url negb orb truthy sample_uri].
  change (artifact_uri =? "")%string with false. cbn [negb]. run.
  rewrite Server_download_result.
  change (axios_get large_video sample_uri)
    with (Returned {| headers := [("content-length", "1048577")];
                      data := oversized_artifact |}).
  cbn [data]. rewrite byteLength_oversized. reflexivity.
Qed.

(* ================================================================== *)
(** * Further properties of the code *)

Import MoreFixtures.

(** ** The handlers are instances of one flow *)

Lemma Server_callTool_orchestrate (request : GenerationRequest) (w : World) :
  Server.callTool request w = Server_orchestrate request w.
Proof. destruct request; reflexivity. Qed.

Lemma LibServer_callTool_orchestrate (request : GenerationRequest) (w : World) :
  LibServer.callTool request w = LibServer_orchestrate request w.
Proof. destruct request; reflexivity. Qed.

Lemma Server_callTool_result (request : GenerationRequest) (w : World) :
  result_of (Server.callTool request) w = result_of (Server_orchestrate request) w.
Proof. unfold result_of. now rewrite Server_callTool_orchestrate. Qed.

Lemma Server_callTool_trace (request : GenerationRequest) (w : World) :
  trace_of (Server.callTool request) w = trace_of (Server_orchestrate request) w.
Proof. unfold trace_of. now rewrite Server_callTool_orchestrate. Qed.

Lemma LibServer_callTool_result (request : GenerationRequest) (w : World) :
  result_of (LibServer.callTool request) w
  = result_of (LibServer_orchestrate request) w.
Proof. unfold result_of. now rewrite LibServer_callTool_orchestrate. Qed.

Lemma LibServer_callTool_trace (request : GenerationRequest) (w : World) :
  trace_of (LibServer.callTool request) w
  = trace_of (LibServer_orchestrate request) w.
Proof. unfold trace_of. now rewrite LibServer_callTool_orchestrate. Qed.

(** ** The calls each operation makes *)

Lemma checkBalance_calls (w : World) (plan agent : string) :
  trace_of (PaymentsManager.checkBalance plan agent) w =
  EvGetPlanBalance plan
  :: match payments_getPlanBalance w plan with
     | Returned _ => [EvGetAssetDDO agent]
     | Threw _ => []
     end.
Proof.
  unfold PaymentsManager.checkBalance. run.
  destruct (payments_getPlanBalance w plan) as [bal|e]; run; [|reflexivity].
  destruct (payments_getAssetDDO w agent) as [ddo|e]; run; [|reflexivity].
  destruct (get bal "balance") as [x|e]; run; reflexivity.
Qed.

Lemma orderPlan_calls (w : World) (plan : string) :
  trace_of (PaymentsManager.orderPlan plan) w = [EvOrderPlan plan].
Proof.
  unfold PaymentsManager.orderPlan. run.
  destruct (payments_orderPlan w plan) as [v|e]; run; [|reflexivity].
  destruct (negb (truthy v) || negb (truthy (member v "success")));
    run; reflexivity.
Qed.

Lemma getServiceAccess_calls (w : World) (agent : string) :
  trace_of (PaymentsManager.getServiceAccess agent) w
  = [EvGetServiceAccessConfig agent].
Proof.
  unfold PaymentsManager.getServiceAccess. run.
  destruct (payments_getServiceAccessConfig w agent) as [cfg|e]; run;
    [|reflexivity].
  destruct (negb (truthy cfg) || negb (truthy (member cfg "accessToken")));
    run; [reflexivity|].
  destruct (PaymentsManager.call_replace _); run; reflexivity.
Qed.

Lemma getVideoService_calls (w : World) (agent : string) :
  trace_of (PaymentsManager.getVideoService agent) w
  = [EvGetServiceAccessConfig agent].
Proof.
  unfold PaymentsManager.getVideoService. run.
  rewrite getServiceAccess_calls.
  destruct (result_of (PaymentsManager.getServiceAccess agent) w); run;
    reflexivity.
Qed.

Lemma generate_calls (service : VideoService.t) (request : GenerationRequest)
  (w : World) :
  trace_of (generate service request) w =
  [EvFetchPost
     (ToString (VideoService.baseUrl service) ++ request_endpoint request)
     ("Bearer " ++ ToString (VideoService.accessToken service))
     (request_body request)].
Proof.
  destruct request; cbn [generate request_endpoint request_body];
    unfold VideoService.generateText2Image, VideoService.generateImage2Image,
      VideoService.generateText2Video, VideoService.post, VideoService.failure;
    run.
  all: destruct (fetch_post w _ _ _) as [response|e]; run; [|reflexivity].
  all: destruct (ok response); cbn [negb]; run; [|reflexivity].
  all: destruct (json response) as [answer|e]; run; [|reflexivity].
  all: destruct (get answer _); run; reflexivity.
Qed.

Lemma Server_download_calls (w : World) (url : JsVal) :
  trace_of (Server.downloadAsBase64 url) w = [EvAxiosGet url].
Proof.
  unfold Server.downloadAsBase64. run.
  destruct (axios_get w url) as [response|e]; run; [|reflexivity].
  destruct (_ <? _); run; reflexivity.
Qed.

Lemma LibServer_download_calls (w : World) (url : JsVal) :
  trace_of (LibServer.downloadAsBase64 url) w = [EvAxiosGet url].
Proof.
  unfold LibServer.downloadAsBase64. run.
  destruct (axios_get w url) as [response|e]; run; [|reflexivity].
  destruct (num_gt _ _); run; reflexivity.
Qed.

(** What a [VideoService] operation returns, by the backend's answer. *)
Lemma generate_result (service : VideoService.t) (request : GenerationRequest)
  (w : World) :
  result_of (generate service request) w =
  match fetch_post w
          (ToString (VideoService.baseUrl service) ++ request_endpoint request)
          ("Bearer " ++ ToString (VideoService.accessToken service))
          (request_body request) with
  | Threw e => result_of (VideoService.failure e) w
  | Returned response =>
      if ok response then
        match json response with
        | Threw e => result_of (VideoService.failure e) w
        | Returned answer =>
            match get answer (primary_field request) with
            | Threw e => result_of (VideoService.failure e) w
            | Returned artifact =>
                Returned
                  match request with
                  | Text2Video _ _ _ =>
                      {| VideoService.success := true;
                         VideoService.message := JUndefined;
                         VideoService.imageUrl := JUndefined;
                         VideoService.url := artifact |}
                  | _ =>
                      {| VideoService.success := true;
                         VideoService.message := JUndefined;
                         VideoService.imageUrl := artifact;
                         VideoService.url := JUndefined |}
                  end
            end
        end
      else result_of
             (VideoService.failure
                (ErrorObj ("HTTP error! status: " ++ Z_to_string (status response))))
             w
  end.
Proof.
  destruct request; cbn [generate request_endpoint request_body primary_field];
    unfold VideoService.generateText2Image, VideoService.generateImage2Image,
      VideoService.generateText2Video, VideoService.post;
    run.
  all: destruct (fetch_post w _ _ _) as [response|e]; run; [|reflexivity].
  all: destruct (ok response); cbn [negb]; run; [|reflexivity].
  all: destruct (json response) as [answer|e]; run; [|reflexivity].
  all: destruct (get answer _); run; reflexivity.
Qed.

(** ** The size of inline content *)

Lemma string_of_list_ascii_length (l : list ascii) :
  String.length (string_of_list_ascii l) = List.length l.
Proof. induction l as [|c l IH]; cbn; congruence. Qed.

Lemma encode_chars_length (data : bytes) :
  Z.of_nat (List.length (Base64.encode_chars data))
  = 4 * ((byteLength data + 2) / 3).
Proof.
  unfold byteLength.
  induction data as [| x | x y | x y z rest IH] using Base64Facts.bytes_ind3;
    try reflexivity.
  cbn [Base64.encode_chars List.length].
  rewrite !Nat2Z.inj_succ, IH.
  replace (Z.succ (Z.succ (Z.succ (Z.of_nat (List.length rest)))) + 2)
    with ((Z.of_nat (List.length rest) + 2) + 1 * 3) by lia.
  rewrite Z.div_add by lia. lia.
Qed.

(** X1.  What [downloadAsBase64] returns inline has four characters for
    every started group of three fetched octets, hence at most 1,398,104
    characters. *)
Theorem inline_content_size (w : World) (url : JsVal) (inline : string) :
  result_of (Server.downloadAsBase64 url) w = Returned (Some inline) ->
  exists response,
    axios_get w url = Returned response
    /\ Z.of_nat (String.length inline)
       = 4 * ((byteLength (data response) + 2) / 3)
    /\ Z.of_nat (String.length inline) <= 1398104.
Proof.
  rewrite Server_download_result.
  destruct (axios_get w url) as [response|e]; [|discriminate].
  destruct (Z.ltb_spec 1048576 (byteLength (data response))) as [Hbig|Hsmall];
    [discriminate|].
  intros [= <-]. exists response. split; [reflexivity|].
  unfold Base64.encode. rewrite string_of_list_ascii_length, encode_chars_length.
  split; [reflexivity|].
  assert ((byteLength (data response) + 2) / 3 <= 349526).
  { apply Z.div_le_upper_bound; lia. }
  lia.
Qed.

Lemma inline_content_size_witness :
  exists response,
    axios_get funded sample_uri = Returned response
    /\ Z.of_nat (String.length "TWFu")
       = 4 * ((byteLength (data response) + 2) / 3)
    /\ Z.of_nat (String.length "TWFu") <= 1398104.
Proof.
  exact (inline_content_size funded sample_uri "TWFu" eq_refl).
Defined.

(** ** The balance check *)

(** X2.  [checkBalance] only reads: every call it makes is the balance
    query or the descriptor query, and the descriptor is queried only
    once the balance query has answered. *)
Theorem checkBalance_only_reads (w : World) (plan agent : string) (ev : Event) :
  In ev (trace_of (PaymentsManager.checkBalance plan agent) w) ->
  ev = EvGetPlanBalance plan
  \/ (ev = EvGetAssetDDO agent
      /\ exists bal, payments_getPlanBalance w plan = Returned bal).
Proof.
  rewrite checkBalance_calls.
  destruct (payments_getPlanBalance w plan) as [bal|e]; cbn.
  - intros [<- | [<- | []]]; [now left|]. right. split; [reflexivity|].
    now exists bal.
  - intros [<- | []]. now left.
Qed.

Lemma checkBalance_only_reads_witness :
  EvGetAssetDDO AGENT_DID = EvGetPlanBalance PLAN_DID
  \/ (EvGetAssetDDO AGENT_DID = EvGetAssetDDO AGENT_DID
      /\ exists bal, payments_getPlanBalance funded PLAN_DID = Returned bal).
Proof.
  exact (checkBalance_only_reads funded PLAN_DID AGENT_DID
           (EvGetAssetDDO AGENT_DID) (or_intror (or_introl eq_refl))).
Defined.

(** X3.  More credits never turn a passing balance check into a failing
    one: against the same agent descriptor, if the check passes with an
    integer balance, a BigInt or a Number, it passes with every larger
    one.  [Number(balance)] rounds a BigInt beyond 2^53 to the nearest
    double, and rounding keeps the order. *)
Theorem checkBalance_monotone (w1 w2 : World) (plan agent : string)
  (bal1 bal2 ddo : JsVal) (b1 b2 : Z) :
  StringToNumber w1 = StringToNumber w2 ->
  payments_getPlanBalance w1 plan = Returned bal1 ->
  payments_getPlanBalance w2 plan = Returned bal2 ->
  payments_getAssetDDO w1 agent = Returned ddo ->
  payments_getAssetDDO w2 agent = Returned ddo ->
  is_integer (member bal1 "balance") b1 ->
  is_integer (member bal2 "balance") b2 ->
  (member bal1 "balance" = JNum (Int b1) -> is_double b1) ->
  (member bal2 "balance" = JNum (Int b2) -> is_double b2) ->
  b1 <= b2 ->
  result_of (PaymentsManager.checkBalance plan agent) w1 = Returned true ->
  result_of (PaymentsManager.checkBalance plan agent) w2 = Returned true.
Proof.
  intros Hnum Hbal1 Hbal2 Hddo1 Hddo2 Hint1 Hint2 Hd1 Hd2 Hle.
  assert (nullish bal1 = false) as Hn1.
  { destruct bal1; try reflexivity; destruct Hint1; discriminate. }
  assert (nullish bal2 = false) as Hn2.
  { destruct bal2; try reflexivity; destruct Hint2; discriminate. }
  rewrite (checkBalance_compares w1 plan agent bal1 ddo Hbal1 Hddo1 Hn1).
  rewrite (checkBalance_compares w2 plan agent bal2 ddo Hbal2 Hddo2 Hn2).
  rewrite <- Hnum. intros [= H]. f_equal.
  refine (js_ge_monotone _ _ _ _ _ H).
  now apply (ToNumber_monotone _ _ _ b1 b2).
Qed.

Lemma checkBalance_monotone_witness :
  result_of (PaymentsManager.checkBalance PLAN_DID AGENT_DID) wealthy
  = Returned true.
Proof.
  refine (checkBalance_monotone funded wealthy PLAN_DID AGENT_DID
            (JObj [("balance", JBigInt 10)]) (JObj [("balance", JBigInt 20)])
            (descriptor (JNum (Int 5))) 10 20
            eq_refl eq_refl eq_refl eq_refl eq_refl
            (or_intror eq_refl) (or_intror eq_refl)
            (fun _ => eq_refl) (fun _ => eq_refl) _ eq_refl).
  discriminate.
Defined.

(** X4.  An agent descriptor that is [undefined] or [null], or whose
    [service] list has fewer than three entries, requires nothing:
    [extractRequiredBalance] gives 0, and the balance check passes exactly
    for a non-negative balance. *)
Theorem short_descriptor_requires_nothing (ddo : JsVal) :
  (nullish ddo = true \/
   exists services,
     member ddo "service" = JArr services /\ (List.length services <= 2)%nat) ->
  PaymentsManager.extractRequiredBalance ddo = JNum (Int 0)
  /\ forall w plan agent bal balance,
       payments_getPlanBalance w plan = Returned bal ->
       payments_getAssetDDO w agent = Returned ddo ->
       is_integer (member bal "balance") balance ->
       result_of (PaymentsManager.checkBalance plan agent) w
       = Returned (0 <=? balance).
Proof.
  intros Hshort.
  assert (read_path minCreditsRequired_path ddo = JUndefined) as Hpath.
  { destruct Hshort as [Hnull | (services & Hservice & Hlen)].
    - destruct ddo; try discriminate; reflexivity.
    - assert (nullish ddo = false) as Hn.
      { destruct ddo; try reflexivity; discriminate. }
      unfold read_path, minCreditsRequired_path. cbn [fold_left].
      unfold get_opt at 6. rewrite Hn, Hservice.
      unfold get_opt at 5. cbn [nullish member].
      change (index_of_key "2") with (Some 2%nat).
      destruct services as [|s0 [|s1 [|s2 rest]]]; cbn in Hlen; try lia;
        reflexivity. }
  split.
  - now rewrite extractRequiredBalance_path, Hpath.
  - intros w plan agent bal balance Hbal Hddo Hint.
    assert (nullish bal = false) as Hn.
    { destruct bal; try reflexivity; destruct Hint; discriminate. }
    rewrite (checkBalance_compares w plan agent bal ddo Hbal Hddo Hn), Hpath.
    f_equal. change (js_or JUndefined (JNum (Int 0))) with (JNum (Int 0)).
    destruct Hint as [-> | ->]; cbn [js_ge ToNumber].
    + reflexivity.
    + apply Number_of_BigInt_sign.
Qed.

Lemma short_descriptor_requires_nothing_witness :
  PaymentsManager.extractRequiredBalance short_descriptor = JNum (Int 0)
  /\ PaymentsManager.extractRequiredBalance JNull = JNum (Int 0).
Proof.
  split.
  - refine (proj1 (short_descriptor_requires_nothing short_descriptor
                     (or_intror (ex_intro _ _ (conj eq_refl _))))).
    cbn. lia.
  - exact (proj1 (short_descriptor_requires_nothing JNull (or_introl eq_refl))).
Defined.

(** ** The access grant *)

Lemma replace_first_unfold (pattern replacement s : string) :
  replace_first pattern replacement s =
  if String.prefix pattern s
  then replacement ++ string_drop (String.length pattern) s
  else match s with
       | EmptyString => s
       | String c rest => String c (replace_first pattern replacement rest)
       end.
Proof. destruct s; reflexivity. Qed.

Lemma prefix_append (pattern rest : string) :
  String.prefix pattern (pattern ++ rest) = true.
Proof.
  induction pattern as [|c pattern IH]; cbn.
  - now destruct rest.
  - destruct (Ascii.ascii_dec c c); [exact IH|contradiction].
Qed.

Lemma string_drop_append (pattern rest : string) :
  string_drop (String.length pattern) (pattern ++ rest) = rest.
Proof. induction pattern as [|c pattern IH]; cbn; [now destruct rest|exact IH]. Qed.

(** The first occurrence, and only it, is replaced. *)
Lemma replace_first_at (pattern replacement after : string) (before : string) :
  (forall i, (i < String.length before)%nat ->
             String.prefix pattern (string_drop i (before ++ pattern ++ after))
             = false) ->
  replace_first pattern replacement (before ++ pattern ++ after)
  = before ++ replacement ++ after.
Proof.
  induction before as [|c before IH]; intros Hfirst.
  - cbn [append]. rewrite replace_first_unfold.
    now rewrite prefix_append, string_drop_append.
  - pose proof (Hfirst 0%nat ltac:(cbn; lia)) as H0.
    cbn [append string_drop] in H0 |- *.
    rewrite replace_first_unfold, H0.
    f_equal. apply IH. intros i Hi.
    apply (Hfirst (S i)). cbn. lia.
Qed.

Lemma replace_first_absent (pattern replacement s : string) :
  occurs pattern s = false -> replace_first pattern replacement s = s.
Proof.
  induction s as [|c s IH]; intros Hocc; rewrite replace_first_unfold.
  - cbn [occurs] in Hocc.
    destruct (String.prefix pattern ""); [discriminate|reflexivity].
  - cbn [occurs] in Hocc.
    destruct (String.prefix pattern (String c s)); [discriminate|].
    f_equal. now apply IH.
Qed.

(** X5.  The grant returned by [getServiceAccess] carries the token as
    received and the proxy URI with its first [https], wherever it
    stands, turned into [http]; a URI without [https] comes back
    unchanged. *)
Theorem getServiceAccess_rewrites_first_https (w : World) (agent : string)
  (cfg : JsVal) (proxy : string) :
  payments_getServiceAccessConfig w agent = Returned cfg ->
  truthy cfg = true ->
  truthy (member cfg "accessToken") = true ->
  member cfg "neverminedProxyUri" = JStr proxy ->
  (forall before after,
      proxy = before ++ "https" ++ after ->
      (forall i, (i < String.length before)%nat ->
                 String.prefix "https" (string_drop i proxy) = false) ->
      result_of (PaymentsManager.getServiceAccess agent) w =
      Returned {| PaymentsManager.neverminedProxyUri := before ++ "http" ++ after;
                  PaymentsManager.accessToken := member cfg "accessToken" |})
  /\ (occurs "https" proxy = false ->
      result_of (PaymentsManager.getServiceAccess agent) w =
      Returned {| PaymentsManager.neverminedProxyUri := proxy;
                  PaymentsManager.accessToken := member cfg "accessToken" |}).
Proof.
  intros Hcfg Htruthy Htoken Hproxy.
  rewrite getServiceAccess_result, Hcfg, Htruthy, Htoken, Hproxy.
  cbn [negb orb PaymentsManager.call_replace].
  split.
  - intros before after -> Hfirst. now rewrite replace_first_at.
  - intros Habsent. now rewrite replace_first_absent.
Qed.

Lemma getServiceAccess_rewrites_first_https_witness :
  result_of (PaymentsManager.getServiceAccess AGENT_DID) funded =
  Returned {| PaymentsManager.neverminedProxyUri :=
                "http://proxy.testing.nevermined.app";
              PaymentsManager.accessToken := JStr "eyJhbGciOiJFUzI1NksifQ" |}
  /\ result_of (PaymentsManager.getServiceAccess AGENT_DID) plain_proxy =
     Returned {| PaymentsManager.neverminedProxyUri :=
                   "http://proxy.local/http-docs";
                 PaymentsManager.accessToken := JStr "eyJhbGciOiJFUzI1NksifQ" |}
  /\ result_of (PaymentsManager.getServiceAccess AGENT_DID) local_proxy =
     Returned {| PaymentsManager.neverminedProxyUri := "http://localhost:3000";
                 PaymentsManager.accessToken := JStr "eyJhbGciOiJFUzI1NksifQ" |}.
Proof.
  split; [|split].
  - refine (proj1 (getServiceAccess_rewrites_first_https funded AGENT_DID
                     accessConfig "https://proxy.testing.nevermined.app"
                     eq_refl eq_refl eq_refl eq_refl)
              "" "://proxy.testing.nevermined.app" eq_refl _).
    intros i Hi. cbn in Hi. lia.
  - refine (proj1 (getServiceAccess_rewrites_first_https plain_proxy AGENT_DID
                     (JObj [("neverminedProxyUri",
                             JStr "http://proxy.local/https-docs");
                            ("accessToken", JStr "eyJhbGciOiJFUzI1NksifQ")])
                     "http://proxy.local/https-docs"
                     eq_refl eq_refl eq_refl eq_refl)
              "http://proxy.local/" "-docs" eq_refl _).
    intros i Hi. cbn in Hi.
    do 19 (destruct i as [|i]; [reflexivity|]). lia.
  - exact (proj2 (getServiceAccess_rewrites_first_https local_proxy AGENT_DID
                    (JObj [("neverminedProxyUri", JStr "http://localhost:3000");
                           ("accessToken", JStr "eyJhbGciOiJFUzI1NksifQ")])
                    "http://localhost:3000"
                    eq_refl eq_refl eq_refl eq_refl)
             eq_refl).
Defined.

(** X6.  A configuration that has a token but whose [neverminedProxyUri]
    is not a string makes [getServiceAccess], and with it
    [getVideoService], throw: no grant is returned. *)
Theorem getServiceAccess_needs_proxy_uri (w : World) (agent : string)
  (cfg : JsVal) :
  payments_getServiceAccessConfig w agent = Returned cfg ->
  truthy cfg = true ->
  truthy (member cfg "accessToken") = true ->
  (forall s, member cfg "neverminedProxyUri" <> JStr s) ->
  throws (PaymentsManager.getServiceAccess agent) w
  /\ throws (PaymentsManager.getVideoService agent) w.
Proof.
  intros Hcfg Htruthy Htoken Hproxy. unfold throws.
  rewrite getVideoService_result, getServiceAccess_result, Hcfg, Htruthy, Htoken.
  cbn [negb orb].
  destruct (member cfg "neverminedProxyUri") as [| | | | |s| |] eqn:E;
    cbn [PaymentsManager.call_replace];
    try (split; eexists; reflexivity).
  now destruct (Hproxy s).
Qed.

Lemma getServiceAccess_needs_proxy_uri_witness :
  throws (PaymentsManager.getServiceAccess AGENT_DID) proxyless
  /\ throws (PaymentsManager.getVideoService AGENT_DID) proxyless.
Proof.
  refine (getServiceAccess_needs_proxy_uri proxyless AGENT_DID
            (JObj [("accessToken", JStr "eyJhbGciOiJFUzI1NksifQ")])
            eq_refl eq_refl eq_refl _).
  intros s. discriminate.
Defined.

(** ** The generation client *)

(** X7.  Each [VideoService] operation makes exactly one POST, to its
    endpoint under the base URL and with the bearer token, and turns
    every failure into a result: a rejected [fetch] or an unreadable body
    gives [success = false] with the error's message, a non-2xx status
    gives [success = false] with "HTTP error! status: <code>". *)
Theorem generate_normalises_failures (service : VideoService.t)
  (request : GenerationRequest) (w : World) :
  let target :=
    ToString (VideoService.baseUrl service) ++ request_endpoint request in
  let authorization :=
    "Bearer " ++ ToString (VideoService.accessToken service) in
  let failed text :=
    Returned {| VideoService.success := false;
                VideoService.message := JStr text;
                VideoService.imageUrl := JUndefined;
                VideoService.url := JUndefined |} in
  trace_of (generate service request) w
  = [EvFetchPost target authorization (request_body request)]
  /\ (forall e,
        fetch_post w target authorization (request_body request) = Threw e ->
        result_of (generate service request) w = failed (error_message e))
  /\ (forall response,
        fetch_post w target authorization (request_body request)
        = Returned response ->
        ok response = false ->
        result_of (generate service request) w
        = failed ("HTTP error! status: " ++ Z_to_string (status response)))
  /\ (forall response e,
        fetch_post w target authorization (request_body request)
        = Returned response ->
        ok response = true ->
        json response = Threw e ->
        result_of (generate service request) w = failed (error_message e)).
Proof.
  cbv zeta. split; [apply generate_calls|].
  rewrite generate_result. split; [|split].
  - now intros e ->.
  - now intros response -> ->.
  - now intros response e -> -> ->.
Qed.

Lemma generate_normalises_failures_witness :
  result_of (generate sample_service (Text2Image "a cat")) backend_down
  = Returned {| VideoService.success := false;
                VideoService.message := JStr "HTTP error! status: 500";
                VideoService.imageUrl := JUndefined;
                VideoService.url := JUndefined |}
  /\ result_of (generate sample_service (Text2Video "a cat" JUndefined JUndefined))
       offline
     = Returned {| VideoService.success := false;
                   VideoService.message := JStr "network error";
                   VideoService.imageUrl := JUndefined;
                   VideoService.url := JUndefined |}.
Proof.
  split.
  - exact (proj1 (proj2 (proj2 (generate_normalises_failures sample_service
                                  (Text2Image "a cat") backend_down)))
             {| ok := false; status := 500; json := Returned JNull |}
             eq_refl eq_refl).
  - exact (proj1 (proj2 (generate_normalises_failures sample_service
                           (Text2Video "a cat" JUndefined JUndefined) offline))
             (ErrorObj "network error") eq_refl).
Defined.

(** ** The flow of a tool call, step by step *)

Lemma generate_returns (service : VideoService.t) (request : GenerationRequest)
  (w : World) :
  exists response, result_of (generate service request) w = Returned response.
Proof.
  rewrite generate_result.
  destruct (fetch_post w _ _ _) as [response|e]; [|now eexists].
  destruct (ok response); [|now eexists].
  destruct (json response) as [answer|e]; [|now eexists].
  destruct (get answer _); now eexists.
Qed.

(** A successful response has no message. *)
Lemma generate_success_message (service : VideoService.t)
  (request : GenerationRequest) (w : World)
  (response : VideoService.MediaGenerationResponse) :
  result_of (generate service request) w = Returned response ->
  VideoService.success response = true ->
  VideoService.message response = JUndefined.
Proof.
  rewrite generate_result.
  destruct (fetch_post w _ _ _) as [r|e]; [|intros [= <-]; discriminate].
  destruct (ok r); [|intros [= <-]; discriminate].
  destruct (json r) as [answer|e]; [|intros [= <-]; discriminate].
  destruct (get answer _); [|intros [= <-]; discriminate].
  intros [= <-] _. now destruct request.
Qed.

Lemma Server_flow_result (request : GenerationRequest) (w : World) :
  result_of (Server_flow request) w =
  match result_of (PaymentsManager.checkBalance PLAN_DID AGENT_DID) w with
  | Threw e => Threw e
  | Returned false => Returned (purchasePrompt PLAN_DID)
  | Returned true =>
      match result_of (PaymentsManager.getVideoService AGENT_DID) w with
      | Threw e => Threw e
      | Returned service =>
          match result_of (generate service request) w with
          | Threw e => Threw e
          | Returned response =>
              if negb (VideoService.success response)
                 || negb (truthy (primaryUri request response))
              then Returned
                     (errorResult
                        (error_prefix request
                         ++ ToString (js_or (VideoService.message response)
                                            (JStr (missing_uri_text request)))))
              else
                match result_of
                        (Server.downloadAsBase64 (primaryUri request response)) w
                with
                | Threw e => Threw e
                | Returned base64 =>
                    Returned
                      (okResult
                         (Server.media_content (primaryUri request response)
                            (Server_mime request) (too_large_text request)
                            base64))
                end
          end
      end
  end.
Proof.
  unfold Server_flow. run.
  destruct (result_of (PaymentsManager.checkBalance _ _) w) as [[|]|e];
    cbn [negb]; run; try reflexivity.
  destruct (result_of (PaymentsManager.getVideoService _) w) as [service|e];
    run; [|reflexivity].
  destruct (result_of (generate service request) w) as [response|e];
    run; [|reflexivity].
  destruct (negb _ || negb _); run; [reflexivity|].
  destruct (result_of (Server.downloadAsBase64 _) w); run; reflexivity.
Qed.

Lemma Server_flow_trace (request : GenerationRequest) (w : World) :
  trace_of (Server_flow request) w =
  (trace_of (PaymentsManager.checkBalance PLAN_DID AGENT_DID) w ++
   match result_of (PaymentsManager.checkBalance PLAN_DID AGENT_DID) w with
   | Returned true =>
       EvGetServiceAccessConfig AGENT_DID
       :: match result_of (PaymentsManager.getVideoService AGENT_DID) w with
          | Threw _ => []
          | Returned service =>
              EvFetchPost
                (ToString (VideoService.baseUrl service)
                 ++ request_endpoint request)
                ("Bearer " ++ ToString (VideoService.accessToken service))
                (request_body request)
              :: match result_of (generate service request) w with
                 | Threw _ => []
                 | Returned response =>
                     if negb (VideoService.success response)
                        || negb (truthy (primaryUri request response))
                     then []
                     else [EvAxiosGet (primaryUri request response)]
                 end
          end
   | _ => []
   end)%list.
Proof.
  unfold Server_flow. run. f_equal.
  destruct (result_of (PaymentsManager.checkBalance _ _) w) as [[|]|e];
    cbn [negb]; run; try reflexivity.
  rewrite getVideoService_calls. cbn [app]. f_equal.
  destruct (result_of (PaymentsManager.getVideoService _) w) as [service|e];
    run; [|reflexivity].
  rewrite generate_calls. cbn [app]. f_equal.
  destruct (result_of (generate service request) w) as [response|e];
    run; [|reflexivity].
  destruct (negb _ || negb _); run; [reflexivity|].
  rewrite Server_download_calls.
  destruct (result_of (Server.downloadAsBase64 _) w); run; reflexivity.
Qed.

Lemma Server_orchestrate_result (request : GenerationRequest) (w : World) :
  result_of (Server_orchestrate request) w =
  match result_of (Server_flow request) w with
  | Returned r => Returned r
  | Threw e =>
      match request with
      | Image2Image _ _ => Returned (errorResult "Error transforming image")
      | _ => Threw e
      end
  end.
Proof.
  destruct request; cbn [Server_orchestrate]; run;
    destruct (result_of (Server_flow _) w); run; reflexivity.
Qed.

Lemma Server_orchestrate_trace (request : GenerationRequest) (w : World) :
  trace_of (Server_orchestrate request) w = trace_of (Server_flow request) w.
Proof.
  destruct request; cbn [Server_orchestrate]; run; try reflexivity.
  destruct (result_of (Server_flow _) w); run; reflexivity.
Qed.

(** A trace of the balance check has no backend call, no download and
    no purchase. *)
Lemma checkBalance_quiet (w : World) (plan agent : string) (f : Event -> bool) :
  f (EvGetPlanBalance plan) = false ->
  f (EvGetAssetDDO agent) = false ->
  existsb f (trace_of (PaymentsManager.checkBalance plan agent) w) = false.
Proof.
  intros H1 H2. rewrite checkBalance_calls.
  destruct (payments_getPlanBalance w plan); cbn; now rewrite H1, ?H2.
Qed.

(** ** The tools of the [PaymentsManager]-based server *)

Lemma downloads_nothing_balance (w : World) (rest : Trace) :
  downloads_nothing
    (trace_of (PaymentsManager.checkBalance PLAN_DID AGENT_DID) w ++ rest)%list
  = downloads_nothing rest.
Proof.
  unfold downloads_nothing.
  now rewrite existsb_app, checkBalance_quiet.
Qed.

Lemma backend_untouched_balance (w : World) (rest : Trace) :
  backend_untouched
    (trace_of (PaymentsManager.checkBalance PLAN_DID AGENT_DID) w ++ rest)%list
  = backend_untouched rest.
Proof.
  unfold backend_untouched.
  now rewrite existsb_app, checkBalance_quiet.
Qed.

(** X8.  When the backend answers with success but no usable URI, the
    tool returns an error result saying that no URL was returned, and
    nothing is downloaded. *)
Theorem missing_uri_is_a_tool_error (w : World) (request : GenerationRequest)
  (service : VideoService.t) (response : VideoService.MediaGenerationResponse) :
  result_of (PaymentsManager.checkBalance PLAN_DID AGENT_DID) w = Returned true ->
  result_of (PaymentsManager.getVideoService AGENT_DID) w = Returned service ->
  result_of (generate service request) w = Returned response ->
  VideoService.success response = true ->
  truthy (primaryUri request response) = false ->
  result_of (Server.callTool request) w
  = Returned (errorResult (error_prefix request ++ missing_uri_text request))
  /\ downloads_nothing (trace_of (Server.callTool request) w) = true.
Proof.
  intros Hbalance Hservice Hgen Hok Huri. split.
  - rewrite Server_callTool_result, Server_orchestrate_result, Server_flow_result.
    rewrite Hbalance, Hservice, Hgen, Hok, Huri.
    now rewrite (generate_success_message _ _ _ _ Hgen Hok).
  - rewrite Server_callTool_trace, Server_orchestrate_trace, Server_flow_trace.
    rewrite downloads_nothing_balance.
    now rewrite Hbalance, Hservice, Hgen, Hok, Huri.
Qed.

Lemma missing_uri_is_a_tool_error_witness :
  result_of (Server.callTool (Text2Image "a cat")) empty_answer
  = Returned (errorResult "Error generating image: No image URL returned")
  /\ downloads_nothing (trace_of (Server.callTool (Text2Image "a cat"))
                          empty_answer) = true.
Proof.
  exact (missing_uri_is_a_tool_error empty_answer (Text2Image "a cat")
           sample_service
           {| VideoService.success := true;
              VideoService.message := JUndefined;
              VideoService.imageUrl := JUndefined;
              VideoService.url := JUndefined |}
           eq_refl eq_refl eq_refl eq_refl eq_refl).
Defined.

(** X9.  When the backend answers with a non-2xx status, the tool
    returns an error result that carries the status code, and nothing is
    downloaded. *)
Theorem backend_failure_is_a_tool_error (w : World)
  (request : GenerationRequest) (service : VideoService.t)
  (response : FetchResponse) :
  result_of (PaymentsManager.checkBalance PLAN_DID AGENT_DID) w = Returned true ->
  result_of (PaymentsManager.getVideoService AGENT_DID) w = Returned service ->
  fetch_post w
    (ToString (VideoService.baseUrl service) ++ request_endpoint request)
    ("Bearer " ++ ToString (VideoService.accessToken service))
    (request_body request)
  = Returned response ->
  ok response = false ->
  result_of (Server.callTool request) w
  = Returned (errorResult
                (error_prefix request ++ "HTTP error! status: "
                 ++ Z_to_string (status response)))
  /\ downloads_nothing (trace_of (Server.callTool request) w) = true.
Proof.
  intros Hbalance Hservice Hfetch Hok.
  assert (result_of (generate service request) w
          = Returned {| VideoService.success := false;
                        VideoService.message :=
                          JStr ("HTTP error! status: "
                                ++ Z_to_string (status response));
                        VideoService.imageUrl := JUndefined;
                        VideoService.url := JUndefined |}) as Hgen.
  { now rewrite generate_result, Hfetch, Hok. }
  split.
  - rewrite Server_callTool_result, Server_orchestrate_result, Server_flow_result.
    now rewrite Hbalance, Hservice, Hgen.
  - rewrite Server_callTool_trace, Server_orchestrate_trace, Server_flow_trace.
    rewrite downloads_nothing_balance.
    now rewrite Hbalance, Hservice, Hgen.
Qed.

Lemma backend_failure_is_a_tool_error_witness :
  result_of (Server.callTool (Text2Video "a cat" JUndefined JUndefined))
    backend_down
  = Returned (errorResult "Error generating video: HTTP error! status: 500")
  /\ downloads_nothing
       (trace_of (Server.callTool (Text2Video "a cat" JUndefined JUndefined))
          backend_down) = true.
Proof.
  exact (backend_failure_is_a_tool_error backend_down
           (Text2Video "a cat" JUndefined JUndefined) sample_service
           {| ok := false; status := 500; json := Returned JNull |}
           eq_refl eq_refl eq_refl eq_refl).
Defined.

(** X10.  When no access grant can be obtained, [text2image] and
    [text2video] reject with the grant's error and [image2image] returns
    an error result; the backend is not called and nothing is
    downloaded. *)
Theorem grant_failure_stops_the_call (w : World) (request : GenerationRequest)
  (e : JsExn) :
  result_of (PaymentsManager.checkBalance PLAN_DID AGENT_DID) w = Returned true ->
  result_of (PaymentsManager.getServiceAccess AGENT_DID) w = Threw e ->
  result_of (Server.callTool request) w
  = match request with
    | Image2Image _ _ => Returned (errorResult "Error transforming image")
    | _ => Threw e
    end
  /\ backend_untouched (trace_of (Server.callTool request) w) = true
  /\ downloads_nothing (trace_of (Server.callTool request) w) = true.
Proof.
  intros Hbalance Hgrant.
  assert (result_of (PaymentsManager.getVideoService AGENT_DID) w = Threw e)
    as Hservice by now rewrite getVideoService_result, Hgrant.
  split; [|split].
  - rewrite Server_callTool_result, Server_orchestrate_result, Server_flow_result.
    now rewrite Hbalance, Hservice.
  - rewrite Server_callTool_trace, Server_orchestrate_trace, Server_flow_trace.
    rewrite backend_untouched_balance. now rewrite Hbalance, Hservice.
  - rewrite Server_callTool_trace, Server_orchestrate_trace, Server_flow_trace.
    rewrite downloads_nothing_balance. now rewrite Hbalance, Hservice.
Qed.

Lemma grant_failure_stops_the_call_witness :
  result_of (Server.callTool (Text2Image "a cat")) tokenless
  = Threw (ErrorObj "Failed to get service access configuration")
  /\ backend_untouched (trace_of (Server.callTool (Text2Image "a cat")) tokenless)
     = true
  /\ downloads_nothing (trace_of (Server.callTool (Text2Image "a cat")) tokenless)
     = true.
Proof.
  exact (grant_failure_stops_the_call tokenless (Text2Image "a cat")
           (ErrorObj "Failed to get service access configuration")
           eq_refl eq_refl).
Defined.

Lemma reaches_download_result (w : World) (request : GenerationRequest)
  (artifact : JsVal) :
  reaches_download w request artifact ->
  result_of (Server_flow request) w =
  match result_of (Server.downloadAsBase64 artifact) w with
  | Threw e => Threw e
  | Returned base64 =>
      Returned (okResult
                  (Server.media_content artifact (Server_mime request)
                     (too_large_text request) base64))
  end.
Proof.
  intros (Hbalance & service & response & Hservice & Hgen & Hok & Huri & ->).
  now rewrite Server_flow_result, Hbalance, Hservice, Hgen, Hok, Huri.
Qed.

(** X11.  Inline delivery, end to end: when the call gets as far as the
    download and the artifact has between 1 and 1,048,576 octets, the
    tool returns a resource with the artifact's URI, the tool's MIME type
    and a blob that decodes, as base64, to the fetched octets. *)
Theorem inline_delivery (w : World) (request : GenerationRequest)
  (artifact : JsVal) (response : AxiosResponse) :
  reaches_download w request artifact ->
  axios_get w artifact = Returned response ->
  data response <> [] ->
  byteLength (data response) <= 1048576 ->
  exists blob,
    result_of (Server.callTool request) w
    = Returned (okResult
                  (ResourceContent {| uri := artifact;
                                      body := Blob blob;
                                      mimeType := Server_mime request |}))
    /\ Base64.decode blob = Some (data response).
Proof.
  intros Hreach Hget Hne Hlen.
  exists (Base64.encode (data response)).
  split; [|apply Base64Facts.decode_encode].
  rewrite Server_callTool_result, Server_orchestrate_result.
  rewrite (reaches_download_result _ _ _ Hreach), Server_download_result, Hget.
  destruct (Z.ltb_spec 1048576 (byteLength (data response))); [lia|].
  unfold Server.media_content, if_string.
  destruct (String.eqb_spec (Base64.encode (data response)) "") as [Hempty|_].
  - apply Base64Facts.encode_empty_iff in Hempty. contradiction.
  - reflexivity.
Qed.

Lemma inline_delivery_witness :
  exists blob,
    result_of (Server.callTool (Text2Image "a cat")) funded
    = Returned (okResult
                  (ResourceContent {| uri := sample_uri;
                                      body := Blob blob;
                                      mimeType := "image/jpeg" |}))
    /\ Base64.decode blob = Some small_artifact.
Proof.
  refine (inline_delivery funded (Text2Image "a cat") sample_uri
            {| headers := [("content-length", "3")]; data := small_artifact |}
            (conj eq_refl
               (ex_intro _ sample_service
                  (ex_intro _ {| VideoService.success := true;
                                 VideoService.message := JUndefined;
                                 VideoService.imageUrl := sample_uri;
                                 VideoService.url := JUndefined |}
                     (conj eq_refl (conj eq_refl (conj eq_refl
                        (conj eq_refl eq_refl)))))))
            eq_refl _ _).
  - discriminate.
  - cbn. lia.
Defined.

(** X12.  Delivery by reference: when the call gets as far as the
    download and the artifact has more than 1,048,576 octets, or none at
    all, the tool returns a resource with the URI and the "too large"
    text instead of a blob. *)
Theorem reference_delivery (w : World) (request : GenerationRequest)
  (artifact : JsVal) (response : AxiosResponse) :
  reaches_download w request artifact ->
  axios_get w artifact = Returned response ->
  data response = [] \/ 1048576 < byteLength (data response) ->
  result_of (Server.callTool request) w
  = Returned (okResult
                (ResourceContent {| uri := artifact;
                                    body := Text (too_large_text request);
                                    mimeType := Server_mime request |})).
Proof.
  intros Hreach Hget Hsize.
  rewrite Server_callTool_result, Server_orchestrate_result.
  rewrite (reaches_download_result _ _ _ Hreach), Server_download_result, Hget.
  destruct Hsize as [Hempty | Hbig].
  - now rewrite Hempty.
  - now destruct (Z.ltb_spec 1048576 (byteLength (data response))); [|lia].
Qed.

Lemma reference_delivery_witness :
  result_of (Server.callTool (Text2Image "a cat")) empty_artifact
  = Returned (okResult
                (ResourceContent
                   {| uri := sample_uri;
                      body := Text "Image too large to display directly";
                      mimeType := "image/jpeg" |})).
Proof.
  exact (reference_delivery empty_artifact (Text2Image "a cat") sample_uri
           {| headers := [("content-length", "0")]; data := [] |}
           (conj eq_refl
              (ex_intro _ sample_service
                 (ex_intro _ {| VideoService.success := true;
                                VideoService.message := JUndefined;
                                VideoService.imageUrl := sample_uri;
                                VideoService.url := JUndefined |}
                    (conj eq_refl (conj eq_refl (conj eq_refl
                       (conj eq_refl eq_refl)))))))
           eq_refl (or_introl eq_refl)).
Defined.

Lemma getServiceAccess_grant_has_token (w : World) (agent : string)
  (grant : PaymentsManager.ServiceAccessConfig) :
  result_of (PaymentsManager.getServiceAccess agent) w = Returned grant ->
  truthy (PaymentsManager.accessToken grant) = true.
Proof.
  rewrite getServiceAccess_result.
  destruct (payments_getServiceAccessConfig w agent) as [cfg|e]; [|discriminate].
  destruct (truthy cfg), (truthy (member cfg "accessToken")) eqn:Htoken;
    cbn [negb orb]; try discriminate.
  destruct (PaymentsManager.call_replace _); [|discriminate].
  now intros [= <-].
Qed.

Lemma in_balance_trace (w : World) (ev : Event) :
  In ev (trace_of (PaymentsManager.checkBalance PLAN_DID AGENT_DID) w) ->
  is_backend_call ev = false /\ is_download_call ev = false.
Proof.
  rewrite checkBalance_calls.
  destruct (payments_getPlanBalance w PLAN_DID); cbn;
    intuition (subst; reflexivity).
Qed.

(** X13.  The generation backend is called only for a caller whose
    balance check passed and for whom a grant was obtained: the request
    goes to the grant's proxy URI followed by the tool's endpoint, and
    carries the grant's token, which is never empty, as bearer. *)
Theorem backend_call_is_authorised (w : World) (request : GenerationRequest)
  (target authorization : string) (body : JsVal) :
  In (EvFetchPost target authorization body)
     (trace_of (Server.callTool request) w) ->
  result_of (PaymentsManager.checkBalance PLAN_DID AGENT_DID) w = Returned true
  /\ exists grant,
       result_of (PaymentsManager.getServiceAccess AGENT_DID) w = Returned grant
       /\ truthy (PaymentsManager.accessToken grant) = true
       /\ target = PaymentsManager.neverminedProxyUri grant
                   ++ request_endpoint request
       /\ authorization
          = "Bearer " ++ ToString (PaymentsManager.accessToken grant)
       /\ body = request_body request.
Proof.
  rewrite Server_callTool_trace, Server_orchestrate_trace, Server_flow_trace.
  intros Hin. apply in_app_or in Hin. destruct Hin as [Hin | Hin].
  { apply in_balance_trace in Hin. destruct Hin; discriminate. }
  destruct (result_of (PaymentsManager.checkBalance PLAN_DID AGENT_DID) w)
    as [[|]|e]; try contradiction.
  split; [reflexivity|].
  destruct Hin as [Hin | Hin]; [discriminate|].
  rewrite getVideoService_result in Hin.
  destruct (result_of (PaymentsManager.getServiceAccess AGENT_DID) w)
    as [grant|e] eqn:Hgrant; [|contradiction].
  exists grant. split; [reflexivity|].
  split; [now apply (getServiceAccess_grant_has_token w AGENT_DID)|].
  destruct Hin as [Hin | Hin].
  - injection Hin as <- <- <-. repeat split.
  - destruct (result_of (generate _ request) w) as [response|e']; [|contradiction].
    destruct (negb _ || negb _); [contradiction|].
    destruct Hin as [Hin | []]. discriminate.
Qed.

Lemma backend_call_is_authorised_witness :
  result_of (PaymentsManager.checkBalance PLAN_DID AGENT_DID) funded
  = Returned true
  /\ exists grant,
       result_of (PaymentsManager.getServiceAccess AGENT_DID) funded
       = Returned grant
       /\ truthy (PaymentsManager.accessToken grant) = true
       /\ "http://proxy.testing.nevermined.app/api/generate/text2image"
          = PaymentsManager.neverminedProxyUri grant
            ++ request_endpoint (Text2Image "a cat")
       /\ "Bearer eyJhbGciOiJFUzI1NksifQ"
          = "Bearer " ++ ToString (PaymentsManager.accessToken grant)
       /\ JObj [("prompt", JStr "a cat")] = request_body (Text2Image "a cat").
Proof.
  refine (backend_call_is_authorised funded (Text2Image "a cat")
            "http://proxy.testing.nevermined.app/api/generate/text2image"
            "Bearer eyJhbGciOiJFUzI1NksifQ" (JObj [("prompt", JStr "a cat")]) _).
  do 3 right. left. reflexivity.
Defined.

(** X14.  The artifact store is queried exactly when the balance check
    passed, a client was obtained and the backend's response was a
    success with a truthy URI, and then for that URI. *)
Theorem download_only_after_success (w : World) (request : GenerationRequest)
  (artifact : JsVal) :
  In (EvAxiosGet artifact) (trace_of (Server.callTool request) w)
  <-> reaches_download w request artifact.
Proof.
  rewrite Server_callTool_trace, Server_orchestrate_trace, Server_flow_trace.
  split.
  - intros Hin. apply in_app_or in Hin. destruct Hin as [Hin | Hin].
    { apply in_balance_trace in Hin. destruct Hin; discriminate. }
    unfold reaches_download.
    destruct (result_of (PaymentsManager.checkBalance PLAN_DID AGENT_DID) w)
      as [[|]|e]; try contradiction.
    split; [reflexivity|].
    destruct Hin as [Hin | Hin]; [discriminate|].
    destruct (result_of (PaymentsManager.getVideoService AGENT_DID) w)
      as [service|e]; [|contradiction].
    exists service.
    destruct Hin as [Hin | Hin]; [discriminate|].
    destruct (result_of (generate service request) w) as [response|e];
      [|contradiction].
    exists response.
    destruct (VideoService.success response),
      (truthy (primaryUri request response));
      cbn [negb orb] in Hin; try contradiction.
    destruct Hin as [[= <-] | []]. now repeat split.
  - intros (Hbalance & service & response & Hservice & Hgen & Hok & Huri & ->).
    rewrite Hbalance, Hservice, Hgen, Hok, Huri. cbn [negb orb].
    apply in_or_app. right. do 2 right. now left.
Qed.

Lemma download_only_after_success_witness :
  reaches_download funded (Text2Image "a cat") sample_uri.
Proof.
  refine (proj1 (download_only_after_success funded (Text2Image "a cat")
                   sample_uri) _).
  do 4 right. left. reflexivity.
Defined.

(** X15.  A tool result carries purchase metadata only when the balance
    check resolved to false, and it is then the purchase prompt: a caller
    whose check passes never gets one. *)
Theorem purchase_prompt_only_when_unfunded (w : World)
  (request : GenerationRequest) (r : ToolResult) (m : Metadata) :
  result_of (Server.callTool request) w = Returned r ->
  metadata r = Some m ->
  result_of (PaymentsManager.checkBalance PLAN_DID AGENT_DID) w = Returned false
  /\ r = purchasePrompt PLAN_DID.
Proof.
  rewrite Server_callTool_result, Server_orchestrate_result, Server_flow_result.
  destruct (result_of (PaymentsManager.checkBalance PLAN_DID AGENT_DID) w)
    as [[|]|e].
  - destruct (result_of (PaymentsManager.getVideoService AGENT_DID) w)
      as [service|e].
    + destruct (result_of (generate service request) w) as [response|e].
      * destruct (negb _ || negb _).
        -- intros [= <-]. discriminate.
        -- destruct (result_of (Server.downloadAsBase64 _) w).
           ++ intros [= <-]. discriminate.
           ++ destruct request; try discriminate. intros [= <-]. discriminate.
      * destruct request; try discriminate. intros [= <-]. discriminate.
    + destruct request; try discriminate. intros [= <-]. discriminate.
  - intros [= <-] _. now split.
  - destruct request; try discriminate. intros [= <-]. discriminate.
Qed.

Lemma purchase_prompt_only_when_unfunded_witness :
  result_of (PaymentsManager.checkBalance PLAN_DID AGENT_DID) underfunded
  = Returned false
  /\ purchasePrompt PLAN_DID = purchasePrompt PLAN_DID.
Proof.
  exact (purchase_prompt_only_when_unfunded underfunded (Text2Image "a cat")
           (purchasePrompt PLAN_DID)
           {| needsPurchase := true; planDid := PLAN_DID |} eq_refl eq_refl).
Defined.

(** X16.  [purchase_plan] never throws and makes exactly one call, the
    order.  It answers with the order's confirmation when the order
    succeeded and with an error result carrying the order's message
    otherwise; its own [catch] and the default confirmation text are
    never reached. *)
Theorem purchase_plan_reports_the_order (w : World) (plan : string) :
  exists order,
    result_of (PaymentsManager.orderPlan plan) w = Returned order
    /\ result_of (Server.purchase_plan plan) w
       = Returned
           (if PaymentsManager.success order
            then okResult (TextContent (PaymentsManager.message order))
            else errorResult
                   ("Error purchasing plan: "
                    ++ (if (PaymentsManager.message order =? "")%string
                        then "Unknown error"
                        else PaymentsManager.message order)))
    /\ trace_of (Server.purchase_plan plan) w = [EvOrderPlan plan].
Proof.
  unfold Server.purchase_plan. run. rewrite orderPlan_calls.
  unfold PaymentsManager.orderPlan. run.
  destruct (payments_orderPlan w plan) as [v|e]; run.
  - destruct (negb (truthy v) || negb (truthy (member v "success"))); run;
      eexists; split; try reflexivity; cbn; split; reflexivity.
  - eexists. split; [reflexivity|]. cbn. split; reflexivity.
Qed.

(** X17.  [image2image] never rejects, in either server: whatever fails
    inside comes back as a result. *)
Theorem image2image_never_rejects (w : World) (inputImageUrl prompt : string) :
  (exists r,
      result_of (Server.callTool (Image2Image inputImageUrl prompt)) w
      = Returned r)
  /\ (exists r,
        result_of (LibServer.callTool (Image2Image inputImageUrl prompt)) w
        = Returned r).
Proof.
  split.
  - rewrite Server_callTool_result, Server_orchestrate_result.
    destruct (result_of (Server_flow _) w); now eexists.
  - rewrite LibServer_callTool_result. cbn [LibServer_orchestrate]. run.
    destruct (result_of (LibServer_flow _) w); run; now eexists.
Qed.

(** ** The tools of the library-based server *)

Lemma LibServer_connect_result (w : World) :
  result_of LibServer.connect w =
  match lib_getServiceAccess w LibServer.agentDid with
  | Threw e => Threw e
  | Returned cfg =>
      if nullish cfg
      then Threw (typeError_read cfg "neverminedProxyUri")
      else Returned (VideoService.new (member cfg "neverminedProxyUri")
                       (member cfg "accessToken"))
  end.
Proof.
  unfold LibServer.connect. run.
  destruct (lib_getServiceAccess w LibServer.agentDid) as [cfg|e]; run;
    [|reflexivity].
  unfold get. destruct (nullish cfg); run; reflexivity.
Qed.

Lemma LibServer_connect_calls (w : World) :
  trace_of LibServer.connect w = [EvLibGetServiceAccess LibServer.agentDid].
Proof.
  unfold LibServer.connect. run.
  destruct (lib_getServiceAccess w LibServer.agentDid) as [cfg|e]; run;
    [|reflexivity].
  unfold get. destruct (nullish cfg); run; reflexivity.
Qed.

Lemma LibServer_flow_result (request : GenerationRequest) (w : World) :
  result_of (LibServer_flow request) w =
  match lib_checkBalance w LibServer.planDid LibServer.agentDid with
  | Threw e => Threw e
  | Returned hasBalance =>
      if negb (truthy hasBalance) then Returned (purchasePrompt LibServer.planDid)
      else
        match result_of LibServer.connect w with
        | Threw e => Threw e
        | Returned service =>
            match result_of (generate service request) w with
            | Threw e => Threw e
            | Returned response =>
                if negb (VideoService.success response)
                   || negb (truthy (primaryUri request response))
                then Returned
                       (errorResult
                          (error_prefix request
                           ++ ToString (js_or (VideoService.message response)
                                              (JStr (missing_uri_text request)))))
                else
                  match request with
                  | Text2Video _ _ _ =>
                      Returned
                        (okResult
                           (ResourceContent
                              {| uri := primaryUri request response;
                                 body := Text (reference_text request);
                                 mimeType := LibServer_mime request |}))
                  | _ =>
                      match result_of
                              (LibServer.downloadAsBase64
                                 (primaryUri request response)) w with
                      | Threw e => Threw e
                      | Returned base64 =>
                          Returned
                            (okResult
                               (LibServer.image_content
                                  (primaryUri request response)
                                  (reference_text request) base64))
                      end
                  end
            end
        end
  end.
Proof.
  unfold LibServer_flow. run.
  destruct (lib_checkBalance w _ _) as [hasBalance|e]; run; [|reflexivity].
  destruct (negb (truthy hasBalance)); run; [reflexivity|].
  destruct (result_of LibServer.connect w) as [service|e]; run; [|reflexivity].
  destruct (result_of (generate service request) w) as [response|e];
    run; [|reflexivity].
  destruct (negb _ || negb _); run; [reflexivity|].
  destruct request; run; try reflexivity;
    destruct (result_of (LibServer.downloadAsBase64 _) w); run; reflexivity.
Qed.

Lemma LibServer_flow_trace (request : GenerationRequest) (w : World) :
  trace_of (LibServer_flow request) w =
  EvLibCheckBalance LibServer.planDid LibServer.agentDid
  :: match lib_checkBalance w LibServer.planDid LibServer.agentDid with
     | Threw _ => []
     | Returned hasBalance =>
         if negb (truthy hasBalance) then []
         else
           EvLibGetServiceAccess LibServer.agentDid
           :: match result_of LibServer.connect w with
              | Threw _ => []
              | Returned service =>
                  EvFetchPost
                    (ToString (VideoService.baseUrl service)
                     ++ request_endpoint request)
                    ("Bearer " ++ ToString (VideoService.accessToken service))
                    (request_body request)
                  :: match result_of (generate service request) w with
                     | Threw _ => []
                     | Returned response =>
                         if negb (VideoService.success response)
                            || negb (truthy (primaryUri request response))
                         then []
                         else
                           match request with
                           | Text2Video _ _ _ => []
                           | _ => [EvAxiosGet (primaryUri request response)]
                           end
                     end
              end
     end.
Proof.
  unfold LibServer_flow. run. cbn [app]. f_equal.
  destruct (lib_checkBalance w _ _) as [hasBalance|e]; run; [|reflexivity].
  destruct (negb (truthy hasBalance)); run; [reflexivity|].
  rewrite LibServer_connect_calls. cbn [app]. f_equal.
  destruct (result_of LibServer.connect w) as [service|e]; run; [|reflexivity].
  rewrite generate_calls. cbn [app]. f_equal.
  destruct (result_of (generate service request) w) as [response|e];
    run; [|reflexivity].
  destruct (negb _ || negb _); run; [reflexivity|].
  destruct request; run; try reflexivity;
    rewrite LibServer_download_calls;
    destruct (result_of (LibServer.downloadAsBase64 _) w); run; reflexivity.
Qed.

Lemma LibServer_orchestrate_result (request : GenerationRequest) (w : World) :
  result_of (LibServer_orchestrate request) w =
  match result_of (LibServer_flow request) w with
  | Returned r => Returned r
  | Threw e =>
      match request with
      | Image2Image _ _ =>
          Returned (errorResult
                      ("Error in image transformation: " ++ error_message e))
      | _ => Threw e
      end
  end.
Proof.
  destruct request; cbn [LibServer_orchestrate]; run;
    destruct (result_of (LibServer_flow _) w); run; reflexivity.
Qed.

Lemma LibServer_orchestrate_trace (request : GenerationRequest) (w : World) :
  trace_of (LibServer_orchestrate request) w = trace_of (LibServer_flow request) w.
Proof.
  destruct request; cbn [LibServer_orchestrate]; run; try reflexivity.
  destruct (result_of (LibServer_flow _) w); run; reflexivity.
Qed.

(** A successful response carries the entry of the backend's JSON
    answer under the field the operation reads. *)
Lemma generate_success_answer (service : VideoService.t)
  (request : GenerationRequest) (w : World)
  (response : VideoService.MediaGenerationResponse) :
  result_of (generate service request) w = Returned response ->
  VideoService.success response = true ->
  exists answer,
    backend_answered service request w answer
    /\ primaryUri request response = member answer (primary_field request).
Proof.
  rewrite generate_result.
  destruct (fetch_post w _ _ _) as [r|e] eqn:Hpost;
    [|intros [= <-]; discriminate].
  destruct (ok r) eqn:Hok; [|intros [= <-]; discriminate].
  destruct (json r) as [answer|e] eqn:Hjson; [|intros [= <-]; discriminate].
  unfold get. destruct (nullish answer); [intros [= <-]; discriminate|].
  intros [= <-] _. exists answer. split.
  - exists r. now rewrite Hpost.
  - now destruct request.
Qed.

(** X18.  In the library-based server [text2video] never downloads the
    video: it makes no [axios] call.  Once the balance check has passed,
    the client is connected and the backend has answered with a truthy
    [url], the tool returns a reference to that URL with the text
    "Generated video" and the type [video/mp4]; and every successful
    result is such a reference, to the [url] entry of the JSON answer the
    backend gave to this request. *)
Theorem LibServer_text2video_never_downloads (w : World) (prompt : string)
  (imageUrls duration : JsVal) :
  downloads_nothing
    (trace_of (LibServer.callTool (Text2Video prompt imageUrls duration)) w)
  = true
  /\ (forall video,
        lib_reaches_download w (Text2Video prompt imageUrls duration) video ->
        result_of (LibServer.callTool (Text2Video prompt imageUrls duration)) w
        = Returned (okResult (ResourceContent {| uri := video;
                                                 body := Text "Generated video";
                                                 mimeType := "video/mp4" |})))
  /\ (forall r,
        result_of (LibServer.callTool (Text2Video prompt imageUrls duration)) w
        = Returned r ->
        isError r = false ->
        metadata r = None ->
        exists service answer,
          result_of LibServer.connect w = Returned service
          /\ backend_answered service (Text2Video prompt imageUrls duration)
               w answer
          /\ truthy (member answer "url") = true
          /\ lib_reaches_download w (Text2Video prompt imageUrls duration)
               (member answer "url")
          /\ r = okResult (ResourceContent {| uri := member answer "url";
                                              body := Text "Generated video";
                                              mimeType := "video/mp4" |})).
Proof.
  split; [|split].
  - rewrite LibServer_callTool_trace, LibServer_orchestrate_trace,
      LibServer_flow_trace.
    destruct (lib_checkBalance w _ _) as [hasBalance|e]; [|reflexivity].
    destruct (negb (truthy hasBalance)); [reflexivity|].
    destruct (result_of LibServer.connect w) as [service|e]; [|reflexivity].
    destruct (result_of (generate service _) w) as [response|e]; [|reflexivity].
    now destruct (negb _ || negb _).
  - intros video ((hasBalance & Hbalance & Htruthy)
                  & service & response & Hservice & Hgen & Hok & Huri & ->).
    rewrite LibServer_callTool_result, LibServer_orchestrate_result,
      LibServer_flow_result, Hbalance, Htruthy.
    cbn [negb]. now rewrite Hservice, Hgen, Hok, Huri.
  - intros r.
    rewrite LibServer_callTool_result, LibServer_orchestrate_result,
      LibServer_flow_result.
    destruct (lib_checkBalance w _ _) as [hasBalance|e] eqn:Hbalance;
      [|discriminate].
    destruct (truthy hasBalance) eqn:Htruthy; cbn [negb];
      [|intros [= <-]; discriminate].
    destruct (result_of LibServer.connect w) as [service|e] eqn:Hservice;
      [|discriminate].
    destruct (result_of (generate service _) w) as [response|e] eqn:Hgen;
      [|discriminate].
    destruct (VideoService.success response) eqn:Hok; cbn [negb orb];
      [|intros [= <-]; discriminate].
    destruct (truthy (primaryUri _ response)) eqn:Huri; cbn [negb];
      [|intros [= <-]; discriminate].
    intros [= <-] _ _.
    destruct (generate_success_answer _ _ _ _ Hgen Hok) as (answer & Hanswer & Heq).
    cbn [primary_field] in Heq.
    exists service, answer. rewrite <- Heq.
    split; [reflexivity|]. split; [exact Hanswer|]. split; [exact Huri|].
    split; [|reflexivity].
    split; [now exists hasBalance|].
    exists service, response. now repeat split.
Qed.

Lemma LibServer_text2video_never_downloads_witness :
  lib_reaches_download large_video (Text2Video "a cat" JUndefined JUndefined)
    sample_uri
  /\ result_of (LibServer.callTool (Text2Video "a cat" JUndefined JUndefined))
       large_video
     = Returned (okResult (ResourceContent {| uri := sample_uri;
                                              body := Text "Generated video";
                                              mimeType := "video/mp4" |}))
  /\ exists service answer,
       result_of LibServer.connect large_video = Returned service
       /\ backend_answered service (Text2Video "a cat" JUndefined JUndefined)
            large_video answer
       /\ truthy (member answer "url") = true
       /\ lib_reaches_download large_video
            (Text2Video "a cat" JUndefined JUndefined) (member answer "url")
       /\ okResult (ResourceContent {| uri := sample_uri;
                                       body := Text "Generated video";
                                       mimeType := "video/mp4" |})
          = okResult (ResourceContent {| uri := member answer "url";
                                         body := Text "Generated video";
                                         mimeType := "video/mp4" |}).
Proof.
  assert (lib_reaches_download large_video
            (Text2Video "a cat" JUndefined JUndefined) sample_uri) as Hreach.
  { split.
    - eexists. split; reflexivity.
    - do 2 eexists. repeat split; reflexivity. }
  split; [exact Hreach|]. split.
  - exact (proj1 (proj2 (LibServer_text2video_never_downloads large_video
                           "a cat" JUndefined JUndefined))
             sample_uri Hreach).
  - exact (proj2 (proj2 (LibServer_text2video_never_downloads large_video
                           "a cat" JUndefined JUndefined))
             (okResult (ResourceContent {| uri := sample_uri;
                                           body := Text "Generated video";
                                           mimeType := "video/mp4" |}))
             eq_refl eq_refl eq_refl).
Defined.

(** X19.  The library-based server uses the grant as received: whenever
    it calls the backend, the balance check was truthy and the request
    goes to the grant's [neverminedProxyUri], with its scheme untouched,
    and carries the grant's [accessToken] as bearer without a check that
    there is one. *)
Theorem LibServer_uses_grant_as_received (w : World)
  (request : GenerationRequest) (target authorization : string) (body : JsVal) :
  In (EvFetchPost target authorization body)
     (trace_of (LibServer.callTool request) w) ->
  exists hasBalance cfg,
    lib_checkBalance w PLAN_DID AGENT_DID = Returned hasBalance
    /\ truthy hasBalance = true
    /\ lib_getServiceAccess w AGENT_DID = Returned cfg
    /\ nullish cfg = false
    /\ target = ToString (member cfg "neverminedProxyUri")
                ++ request_endpoint request
    /\ authorization = "Bearer " ++ ToString (member cfg "accessToken")
    /\ body = request_body request.
Proof.
  rewrite LibServer_callTool_trace, LibServer_orchestrate_trace,
    LibServer_flow_trace, LibServer_connect_result.
  change LibServer.planDid with PLAN_DID. change LibServer.agentDid with AGENT_DID.
  intros [Hin | Hin]; [discriminate|].
  destruct (lib_checkBalance w PLAN_DID AGENT_DID) as [hasBalance|e];
    [|contradiction].
  destruct (truthy hasBalance) eqn:Htruthy; cbn [negb] in Hin; [|contradiction].
  destruct Hin as [Hin | Hin]; [discriminate|].
  destruct (lib_getServiceAccess w AGENT_DID) as [cfg|e]; [|contradiction].
  destruct (nullish cfg) eqn:Hnull; [contradiction|].
  exists hasBalance, cfg.
  split; [reflexivity|]. split; [exact Htruthy|].
  split; [reflexivity|]. split; [exact Hnull|].
  destruct Hin as [Hin | Hin].
  - injection Hin as <- <- <-. repeat split.
  - destruct (result_of (generate _ request) w) as [response|e'];
      [|contradiction].
    destruct (negb _ || negb _); [contradiction|].
    destruct request; cbn in Hin; intuition discriminate.
Qed.

Lemma LibServer_uses_grant_as_received_witness :
  exists hasBalance cfg,
    lib_checkBalance funded PLAN_DID AGENT_DID = Returned hasBalance
    /\ truthy hasBalance = true
    /\ lib_getServiceAccess funded AGENT_DID = Returned cfg
    /\ nullish cfg = false
    /\ "https://proxy.testing.nevermined.app/api/generate/text2image"
       = ToString (member cfg "neverminedProxyUri")
         ++ request_endpoint (Text2Image "a cat")
    /\ "Bearer eyJhbGciOiJFUzI1NksifQ"
       = "Bearer " ++ ToString (member cfg "accessToken")
    /\ JObj [("prompt", JStr "a cat")] = request_body (Text2Image "a cat").
Proof.
  refine (LibServer_uses_grant_as_received funded (Text2Image "a cat")
            "https://proxy.testing.nevermined.app/api/generate/text2image"
            "Bearer eyJhbGciOiJFUzI1NksifQ" (JObj [("prompt", JStr "a cat")]) _).
  do 2 right. left. reflexivity.
Defined.

Lemma lib_reaches_download_result (w : World) (request : GenerationRequest)
  (artifact : JsVal) :
  lib_reaches_download w request artifact ->
  result_of (LibServer_flow request) w =
  match request with
  | Text2Video _ _ _ =>
      Returned (okResult
                  (ResourceContent {| uri := artifact;
                                      body := Text (reference_text request);
                                      mimeType := LibServer_mime request |}))
  | _ =>
      match result_of (LibServer.downloadAsBase64 artifact) w with
      | Threw e => Threw e
      | Returned base64 =>
          Returned (okResult
                      (LibServer.image_content artifact
                         (reference_text request) base64))
      end
  end.
Proof.
  intros ((hasBalance & Hbalance & Htruthy)
          & service & response & Hservice & Hgen & Hok & Huri & ->).
  rewrite LibServer_flow_result, Hbalance, Htruthy.
  cbn [negb]. now rewrite Hservice, Hgen, Hok, Huri.
Qed.

(** X20.  Delivery by the image tools of the library-based server, once
    the call has got as far as the download: the image is returned
    inline, labelled [image/png], when the download succeeds with a
    non-empty body and a declared length of at most 1,048,576; when the
    download fails, the declared length is larger, or the body is empty,
    the tool returns the reference to the URL, the same in all three
    cases. *)
Theorem LibServer_delivery (w : World) (request : GenerationRequest)
  (artifact : JsVal) :
  lib_reaches_download w request artifact ->
  match request with Text2Video _ _ _ => False | _ => True end ->
  (forall response,
      axios_get w artifact = Returned response ->
      num_gt (declared_length response) (Int 1048576) = false ->
      data response <> [] ->
      result_of (LibServer.callTool request) w
      = Returned (okResult
                    (ImageContent (Base64.encode (data response)) "image/png")))
  /\ ((exists e, axios_get w artifact = Threw e)
      \/ (exists response,
             axios_get w artifact = Returned response
             /\ (num_gt (declared_length response) (Int 1048576) = true
                 \/ data response = [])) ->
      result_of (LibServer.callTool request) w
      = Returned (okResult
                    (ResourceContent {| uri := artifact;
                                        body := Text (reference_text request);
                                        mimeType := "image/png" |}))).
Proof.
  intros Hreach Himage.
  assert (forall base64,
             result_of (LibServer.downloadAsBase64 artifact) w = Returned base64 ->
             result_of (LibServer.callTool request) w
             = Returned (okResult
                           (LibServer.image_content artifact
                              (reference_text request) base64))) as Hflow.
  { intros base64 Hdownload.
    rewrite LibServer_callTool_result, LibServer_orchestrate_result.
    rewrite (lib_reaches_download_result _ _ _ Hreach).
    destruct request; try contradiction; now rewrite Hdownload. }
  split.
  - intros response Hget Hlen Hne.
    rewrite (Hflow (Some (Base64.encode (data response)))).
    + unfold LibServer.image_content, if_string.
      destruct (String.eqb_spec (Base64.encode (data response)) "")
        as [Hempty|_]; [|reflexivity].
      apply Base64Facts.encode_empty_iff in Hempty. contradiction.
    + rewrite LibServer_download_result, Hget.
      change (parseInt _) with (declared_length response). now rewrite Hlen.
  - intros [[e Hget] | (response & Hget & [Hlen | Hempty])].
    + rewrite (Hflow None); [reflexivity|].
      now rewrite LibServer_download_result, Hget.
    + rewrite (Hflow None); [reflexivity|].
      rewrite LibServer_download_result, Hget.
      change (parseInt _) with (declared_length response). now rewrite Hlen.
    + destruct (num_gt (declared_length response) (Int 1048576)) eqn:Hlen.
      * rewrite (Hflow None); [reflexivity|].
        rewrite LibServer_download_result, Hget.
        change (parseInt _) with (declared_length response). now rewrite Hlen.
      * rewrite (Hflow (Some "")); [reflexivity|].
        rewrite LibServer_download_result, Hget.
        change (parseInt _) with (declared_length response).
        now rewrite Hlen, Hempty.
Qed.

Lemma LibServer_delivery_witness :
  result_of (LibServer.callTool (Text2Image "a cat")) funded
  = Returned (okResult (ImageContent (Base64.encode small_artifact) "image/png"))
  /\ result_of (LibServer.callTool (Text2Image "a cat")) broken_link
     = Returned (okResult
                   (ResourceContent {| uri := sample_uri;
                                       body := Text "Generated image";
                                       mimeType := "image/png" |})).
Proof.
  pose (service := VideoService.new (JStr "https://proxy.testing.nevermined.app")
                     (JStr "eyJhbGciOiJFUzI1NksifQ")).
  pose (response := {| VideoService.success := true;
                       VideoService.message := JUndefined;
                       VideoService.imageUrl := sample_uri;
                       VideoService.url := JUndefined |}).
  split.
  - refine (proj1 (LibServer_delivery funded (Text2Image "a cat") sample_uri
                     (conj (ex_intro _ (JBool true) (conj eq_refl eq_refl))
                        (ex_intro _ service
                           (ex_intro _ response
                              (conj eq_refl (conj eq_refl (conj eq_refl
                                 (conj eq_refl eq_refl)))))))
                     I)
              {| headers := [("content-length", "3")]; data := small_artifact |}
              eq_refl eq_refl _).
    discriminate.
  - exact (proj2 (LibServer_delivery broken_link (Text2Image "a cat") sample_uri
                    (conj (ex_intro _ (JBool true) (conj eq_refl eq_refl))
                       (ex_intro _ service
                          (ex_intro _ response
                             (conj eq_refl (conj eq_refl (conj eq_refl
                                (conj eq_refl eq_refl)))))))
                    I)
             (or_introl (ex_intro _ (ErrorObj "Request failed with status code 404")
                           eq_refl))).
Defined.

(** X21.  Generating never buys: no call of a generation tool, in either
    server, places an order with the payment service. *)
Theorem generation_never_purchases (w : World) (request : GenerationRequest) :
  existsb is_purchase_call (trace_of (Server.callTool request) w) = false
  /\ existsb is_purchase_call (trace_of (LibServer.callTool request) w) = false.
Proof.
  split.
  - rewrite Server_callTool_trace, Server_orchestrate_trace, Server_flow_trace.
    rewrite existsb_app, checkBalance_quiet by reflexivity.
    destruct (result_of (PaymentsManager.checkBalance _ _) w) as [[|]|e];
      try reflexivity.
    destruct (result_of (PaymentsManager.getVideoService _) w) as [service|e];
      [|reflexivity].
    destruct (result_of (generate service request) w) as [response|e];
      [|reflexivity].
    now destruct (negb _ || negb _).
  - rewrite LibServer_callTool_trace, LibServer_orchestrate_trace,
      LibServer_flow_trace.
    destruct (lib_checkBalance w _ _) as [hasBalance|e]; [|reflexivity].
    destruct (negb (truthy hasBalance)); [reflexivity|].
    destruct (result_of LibServer.connect w) as [service|e]; [|reflexivity].
    destruct (result_of (generate service request) w) as [response|e];
      [|reflexivity].
    destruct (negb _ || negb _); [reflexivity|].
    now destruct request.
Qed.

(** ** Start-up *)

Lemma getInstances_settled (connect : nat -> Exc unit) (n : nat)
  (p : Startup.Process) (manager : nat) :
  Startup.instance p = Some manager ->
  Startup.getInstances connect n p = (repeat (Returned manager) n, p).
Proof.
  intros Hset. induction n as [|n IH]; [reflexivity|].
  cbn [Startup.getInstances]. unfold Startup.getInstance at 1.
  now rewrite Hset, IH.
Qed.

Lemma nth_error_repeat_lt {A : Type} (x : A) (n j : nat) :
  (j < n)%nat -> nth_error (repeat x n) j = Some x.
Proof.
  revert j. induction n as [|n IH]; intros [|j] Hj; cbn; try lia; try reflexivity.
  apply IH. lia.
Qed.

Lemma nth_error_repeat_inv {A : Type} (x y : A) (n i : nat) :
  nth_error (repeat x n) i = Some y -> y = x /\ (i < n)%nat.
Proof.
  revert i. induction n as [|n IH]; intros [|i] H; cbn in H; try discriminate.
  - injection H as <-. split; [reflexivity|lia].
  - destruct (IH i H). split; [assumption|lia].
Qed.

(** X22.  The [PaymentsManager] singleton: in any run of calls of
    [getInstance], whatever constructions failed before, once a call has
    returned a manager every later call returns that same manager, and
    it is the one left in the static field. *)
Theorem singleton_is_built_once (connect : nat -> Exc unit) (n : nat)
  (p p' : Startup.Process) (outs : list (Exc nat)) (i : nat) (manager : nat) :
  Startup.getInstances connect n p = (outs, p') ->
  nth_error outs i = Some (Returned manager) ->
  Startup.instance p' = Some manager
  /\ forall j, (i <= j)%nat -> (j < n)%nat ->
               nth_error outs j = Some (Returned manager).
Proof.
  revert p p' outs i.
  induction n as [|n IH]; intros p p' outs i Hrun Hi.
  - cbn in Hrun. injection Hrun as <- <-. now destruct i.
  - destruct (Startup.instance p) as [m0|] eqn:Hset.
    + rewrite (getInstances_settled connect (S n) p m0 Hset) in Hrun.
      injection Hrun as <- <-.
      apply (nth_error_repeat_inv _ _ (S n)) in Hi. destruct Hi as [[= ->] _].
      split; [exact Hset|]. intros j _ Hj.
      now apply (nth_error_repeat_lt _ (S n)).
    + cbn [Startup.getInstances] in Hrun. unfold Startup.getInstance at 1 in Hrun.
      rewrite Hset in Hrun.
      destruct (connect (Startup.constructions p)) as [[]|e].
      * rewrite (getInstances_settled connect n
                   {| Startup.instance := Some (Startup.constructions p);
                      Startup.constructions := S (Startup.constructions p) |}
                   (Startup.constructions p) eq_refl)
          in Hrun.
        injection Hrun as <- <-.
        apply (nth_error_repeat_inv _ _ (S n)) in Hi. destruct Hi as [[= ->] _].
        split; [reflexivity|]. intros j _ Hj.
        now apply (nth_error_repeat_lt _ (S n)).
      * destruct (Startup.getInstances connect n _) as [others p2] eqn:Hrest.
        injection Hrun as <- <-.
        destruct i as [|i]; [discriminate|]. cbn [nth_error] in Hi.
        destruct (IH _ _ _ _ Hrest Hi) as [Hfield Hlater].
        split; [exact Hfield|].
        intros [|j] Hle Hj; [lia|]. cbn [nth_error]. apply Hlater; lia.
Qed.

Lemma singleton_is_built_once_witness :
  Startup.getInstances third_time_lucky 4 Startup.fresh
  = ([Threw (ErrorObj "invalid API key"); Threw (ErrorObj "invalid API key");
      Returned 2%nat; Returned 2%nat],
     {| Startup.instance := Some 2%nat; Startup.constructions := 3 |})
  /\ nth_error
       [Threw (ErrorObj "invalid API key"); Threw (ErrorObj "invalid API key");
        Returned 2%nat; Returned 2%nat] 3
     = Some (Returned 2%nat).
Proof.
  split; [reflexivity|].
  refine (proj2 (singleton_is_built_once third_time_lucky 4 Startup.fresh
                   {| Startup.instance := Some 2%nat; Startup.constructions := 3 |}
                   [Threw (ErrorObj "invalid API key");
                    Threw (ErrorObj "invalid API key");
                    Returned 2%nat; Returned 2%nat]
                   2 2 eq_refl eq_refl) 3%nat _ _); lia.
Defined.

(** X23.  At start-up the payments client is built only with an API
    key: when [NVM_API_KEY] is unset or empty, loading throws
    "NVM_API_KEY is not set" and the constructor does not run; otherwise
    the constructor runs exactly once, whether it succeeds or not. *)
Theorem client_built_only_with_api_key (apiKey : JsVal)
  (connect : nat -> Exc unit) :
  (truthy apiKey = false ->
   Startup.load apiKey connect Startup.fresh
   = (Threw (ErrorObj "NVM_API_KEY is not set"), Startup.fresh))
  /\ (truthy apiKey = true ->
      Startup.constructions (snd (Startup.load apiKey connect Startup.fresh))
      = 1%nat
      /\ (Startup.instance (snd (Startup.load apiKey connect Startup.fresh))
          = None
          <-> exists e, connect 0%nat = Threw e)).
Proof.
  unfold Startup.load, Startup.validateConfig. split; intros ->; cbn [negb].
  - reflexivity.
  - unfold Startup.getInstance. cbn [Startup.instance Startup.fresh
                                      Startup.constructions].
    destruct (connect 0%nat) as [[]|e]; cbn; split; try reflexivity.
    + split; [discriminate|]. intros [e He]. discriminate.
    + split; [now exists e|reflexivity].
Qed.

Lemma client_built_only_with_api_key_witness :
  Startup.load (JStr "") third_time_lucky Startup.fresh
  = (Threw (ErrorObj "NVM_API_KEY is not set"), Startup.fresh)
  /\ Startup.load JUndefined third_time_lucky Startup.fresh
     = (Threw (ErrorObj "NVM_API_KEY is not set"), Startup.fresh)
  /\ Startup.constructions
       (snd (Startup.load (JStr "nvm-key") third_time_lucky Startup.fresh))
     = 1%nat.
Proof.
  split; [|split].
  - exact (proj1 (client_built_only_with_api_key (JStr "") third_time_lucky)
             eq_refl).
  - exact (proj1 (client_built_only_with_api_key JUndefined third_time_lucky)
             eq_refl).
  - exact (proj1 (proj2 (client_built_only_with_api_key (JStr "nvm-key")
                           third_time_lucky) eq_refl)).
Defined.

(** ** More on the purchase tool and the balance check *)

(** X24.  In the library-based server [purchase_plan] never rejects and
    makes exactly one call, the purchase; its result is not an error
    exactly when the library answered with an object whose [success] is
    truthy. *)
Theorem LibServer_purchase_plan_never_rejects (w : World) (plan : string) :
  exists r,
    result_of (LibServer.purchase_plan plan) w = Returned r
    /\ trace_of (LibServer.purchase_plan plan) w = [EvLibPurchasePlan plan]
    /\ (isError r = false <->
        exists answer,
          lib_purchasePlan w plan = Returned answer
          /\ nullish answer = false
          /\ truthy (member answer "success") = true).
Proof.
  unfold LibServer.purchase_plan. run.
  destruct (lib_purchasePlan w plan) as [answer|e]; run.
  - unfold get. destruct (nullish answer) eqn:Hnull; run.
    + eexists. split; [reflexivity|]. split; [reflexivity|]. cbn.
      split; [discriminate|]. intros (a & [= <-] & Hn & _). congruence.
    + destruct (truthy (member answer "success")) eqn:Hok; cbn [negb]; run;
        (eexists; split; [reflexivity|]; split; [reflexivity|]); cbn.
      * split; [|reflexivity]. intros _. now exists answer.
      * split; [discriminate|]. intros (a & [= <-] & _ & Hs). congruence.
  - eexists. split; [reflexivity|]. split; [reflexivity|]. cbn.
    split; [discriminate|]. intros (a & Ha & _). discriminate.
Qed.

Lemma LibServer_purchase_plan_never_rejects_witness :
  exists r,
    result_of (LibServer.purchase_plan PLAN_DID) funded = Returned r
    /\ trace_of (LibServer.purchase_plan PLAN_DID) funded
       = [EvLibPurchasePlan PLAN_DID]
    /\ (isError r = false <->
        exists answer,
          lib_purchasePlan funded PLAN_DID = Returned answer
          /\ nullish answer = false
          /\ truthy (member answer "success") = true).
Proof.
  exact (LibServer_purchase_plan_never_rejects funded PLAN_DID).
Defined.

Lemma js_ge_NaN_right (toNum : string -> JsNum) (a : JsNum) (required : JsVal) :
  ToNumber toNum required = NaN -> js_ge toNum a required = false.
Proof.
  unfold js_ge. intros Hnan.
  destruct required; try (rewrite Hnan; now destruct a as [| |[|]]).
  now apply Number_of_BigInt_not_NaN in Hnan.
Qed.

(** X25.  The balance check fails closed on answers it cannot read as
    numbers: when the balance answer has no numeric [balance], or the
    descriptor's requirement does not convert to a number, it resolves to
    [false]. *)
Theorem checkBalance_unreadable_is_false (w : World) (plan agent : string)
  (bal ddo : JsVal) :
  payments_getPlanBalance w plan = Returned bal ->
  payments_getAssetDDO w agent = Returned ddo ->
  ToNumber (StringToNumber w) (member bal "balance") = NaN
  \/ ToNumber (StringToNumber w) (PaymentsManager.extractRequiredBalance ddo)
     = NaN ->
  result_of (PaymentsManager.checkBalance plan agent) w = Returned false.
Proof.
  intros Hbal Hddo Hunreadable.
  destruct (nullish bal) eqn:Hnull.
  - unfold PaymentsManager.checkBalance. run. rewrite Hbal. run.
    rewrite Hddo. run. unfold get. rewrite Hnull. now run.
  - rewrite (checkBalance_compares w plan agent bal ddo Hbal Hddo Hnull).
    rewrite <- extractRequiredBalance_path. f_equal.
    destruct Hunreadable as [-> | Hreq]; [apply js_ge_NaN_left|].
    now apply js_ge_NaN_right.
Qed.

Lemma checkBalance_unreadable_is_false_witness :
  result_of (PaymentsManager.checkBalance PLAN_DID AGENT_DID)
    (world JUndefined (Returned accessConfig) (backend_ok image_body)
       (served [("content-length", "3")] small_artifact))
  = Returned false.
Proof.
  exact (checkBalance_unreadable_is_false
           (world JUndefined (Returned accessConfig) (backend_ok image_body)
              (served [("content-length", "3")] small_artifact))
           PLAN_DID AGENT_DID
           (JObj [("balance", JUndefined)]) (descriptor (JNum (Int 5)))
           eq_refl eq_refl (or_introl eq_refl)).
Defined.
